(** * Request validation and job-execution pipeline of the ONNX model generator

    A shallow embedding of [src/main.py]: the Flask view [generate_model]
    (the [/generate] endpoint) together with the module constants it reads,
    and the properties of its validation, subprocess supervision, packaging
    and temporary-directory discipline.

    The view is effectful: it creates a temporary directory, runs a child
    process, inspects and changes the file system and leaves through
    [return] or through an exception at many points.  It is embedded in a
    small state-and-exception monad [M] whose state is the file system and
    the trace of operating-system calls made so far.  What the outside
    world decides (the parent environment, the name [mkdtemp] picks, what
    the child process does, what [shutil.make_archive] does) is a record of
    oracles, [World]; every theorem quantifies over it. *)

From Stdlib Require Import String Ascii ZArith List Bool Lia DecimalString.
From stdpp Require Import base option gmap strings list fin_maps.

Local Open Scope list_scope.
Local Open Scope string_scope.
Set Warnings "-register-all".

(** ** Python values *)

(** The values the view handles come out of [request.get_json()]: JSON
    [null], booleans, integers, strings, arrays and objects.  A JSON object
    is kept as the list of its members; the binding of a key is the first
    member with that key.  (JSON numbers with a fraction are not modelled:
    the view treats them like a non-zero integer wherever it looks at
    them.) *)
Inductive value : Type :=
| VNone
| VBool (b : bool)
| VInt (z : Z)
| VStr (s : string)
| VList (l : list value)
| VDict (d : list (string * value)).

(** [bool(v)], as used by [if not model_name] and [if hf_token]. *)
Definition truthy (v : value) : bool :=
  match v with
  | VNone => false
  | VBool b => b
  | VInt z => negb (z =? 0)%Z
  | VStr s => match s with EmptyString => false | String _ _ => true end
  | VList l => match l with [] => false | _ :: _ => true end
  | VDict d => match d with [] => false | _ :: _ => true end
  end.

(** [type(v).__name__] *)
Definition type_name (v : value) : string :=
  match v with
  | VNone => "NoneType"
  | VBool _ => "bool"
  | VInt _ => "int"
  | VStr _ => "str"
  | VList _ => "list"
  | VDict _ => "dict"
  end.

(** [v == s] for a string [s]: only a [str] with the same characters. *)
Definition eq_str (v : value) (s : string) : bool :=
  match v with
  | VStr t => String.eqb t s
  | _ => false
  end.

(** [v in l] for a list [l] of strings. *)
Definition py_in (v : value) (l : list string) : bool :=
  existsb (eq_str v) l.

(** [(v1, v2) in l] for a list [l] of pairs of strings: tuples are equal
    when their components are. *)
Definition py_in2 (v1 v2 : value) (l : list (string * string)) : bool :=
  existsb (fun pe => eq_str v1 (fst pe) && eq_str v2 (snd pe)) l.

(** [d.get(key, default)] on the members of a dict. *)
Fixpoint dict_get (d : list (string * value)) (key : string) (default : value) : value :=
  match d with
  | [] => default
  | (k, v) :: d' => if String.eqb k key then v else dict_get d' key default
  end.

(** ** Strings and paths *)

(** [bool(l)] of a list *)
Definition truthy_list {A} (l : list A) : bool :=
  match l with [] => false | _ :: _ => true end.

(** [s.startswith(p)] *)
Fixpoint startswith (p s : string) : bool :=
  match p, s with
  | EmptyString, _ => true
  | String a p', String b s' => Ascii.eqb a b && startswith p' s'
  | String _ _, EmptyString => false
  end.

(** [s.endswith("/")] *)
Fixpoint ends_with_sep (s : string) : bool :=
  match s with
  | EmptyString => false
  | String a EmptyString => Ascii.eqb a "/"
  | String _ s' => ends_with_sep s'
  end.

(** [s.replace(old, new)] for one-character [old] and [new]. *)
Fixpoint replace (old new : ascii) (s : string) : string :=
  match s with
  | EmptyString => EmptyString
  | String a s' => String (if Ascii.eqb a old then new else a) (replace old new s')
  end.

(** [sep.join(l)] on strings. *)
Fixpoint join (sep : string) (l : list string) : string :=
  match l with
  | [] => ""
  | [s] => s
  | s :: l' => s ++ sep ++ join sep l'
  end.

(** [os.path.join(a, b)] (posixpath): an absolute [b] discards [a]. *)
Definition os_path_join (a b : string) : string :=
  if startswith "/" b then b
  else match a with
       | EmptyString => b
       | _ => if ends_with_sep a then a ++ b else a ++ "/" ++ b
       end.

(** ** Configuration (lines 16-28) *)

Definition SUPPORTED_PRECISIONS : list string := ["fp16"; "fp32"; "int4"; "int8"].

Definition SUPPORTED_EXECUTION_PROVIDERS : list string :=
  ["cpu"; "cuda"; "rocm"; "dml"; "webgpu"; "NvTensorRtRtx"].

Definition TEMP_DIR : string := "/app/tmp".

Definition VALID_COMBINATIONS : list (string * string) :=
  [ ("fp32", "cpu"); ("fp32", "cuda");
    ("fp16", "cuda"); ("fp16", "dml"); ("fp16", "NvTensorRtRtx");
    ("bf16", "cuda");
    ("int4", "cpu"); ("int4", "cuda"); ("int4", "dml"); ("int4", "webgpu") ].

(** ** Exceptions, responses *)

Inductive Exn : Type :=
| TimeoutExpired (cmd : list string) (timeout : Z)
| CalledProcessError (returncode : Z) (cmd : list string) (stdout stderr : string)
| Exception (cls : string) (msg : string).

(** An f-string is kept as the sequence of its literal parts and of the
    objects it formats; [str()] of an arbitrary object is Python's
    business, not the view's. *)
Inductive frag : Type :=
| Lit (s : string)
| Fmt (v : value)
| FmtStrs (l : list string)
| FmtPairs (l : list (string * string))
| FmtExn (e : Exn).

Definition text : Type := list frag.

(** What the view returns: [jsonify(body), status], or the response
    [send_file] builds (status 200). *)
Inductive Response : Type :=
| Json (body : list (string * text)) (status : Z)
| SendFile (path : string) (content : string) (as_attachment : bool)
           (download_name : string) (mimetype : string).

Definition status_code (r : Response) : Z :=
  match r with
  | Json _ st => st
  | SendFile _ _ _ _ _ => 200
  end.

(** ** File system, trace and the world *)

Inductive node : Type :=
| File (content : string)
| Dir.

(** Absolute path to node. *)
Abbreviation FS := (gmap string node).

(** The calls the view makes to the operating system, in order. *)
Inductive event : Type :=
| EvMkdtemp (path : string)
| EvRun (command : list value) (env : gmap string value) (timeout : Z)
| EvExists (path : string)
| EvListdir (path : string)
| EvMakeArchive (base_name format root_dir : string)
| EvSendFile (path : string)
| EvRmtree (path : string).

Record State : Type := mkState { fs : FS; trace : list event }.

(** How a child process stands at the deadline. *)
Inductive Completion : Type :=
| Exited (returncode : Z) (stdout stderr : string)
| Running.

Record World : Type := mkWorld {
  (** [os.environ] of the server process *)
  environ : gmap string string;
  (** the unused name [tempfile] picks under the given directory *)
  tempname : string;
  (** the child process run with this command line and environment,
      watched for [timeout] seconds: an error before it starts, or how it
      stands at the deadline and the file system it leaves *)
  spawn : list string -> gmap string string -> Z -> FS -> Exn + (Completion * FS);
  (** [shutil.make_archive(base_name, format, root_dir)]: the exception it
      raises, if any, and the file system it leaves *)
  make_archive : string -> string -> string -> FS -> option Exn * FS
}.

(** ** The monad *)

(** A block of Python either runs to its end with a value, leaves the
    function through [return], or raises. *)
Inductive outcome (A : Type) : Type :=
| Normal (a : A)
| Return (r : Response)
| Raise (e : Exn).
Arguments Normal {A} a.
Arguments Return {A} r.
Arguments Raise {A} e.

Definition M (A : Type) : Type := State -> outcome A * State.

Definition ret {A} (a : A) : M A := fun s => (Normal a, s).

Definition bind {A B} (m : M A) (k : A -> M B) : M B :=
  fun s =>
    match m s with
    | (Normal a, s') => k a s'
    | (Return r, s') => (Return r, s')
    | (Raise e, s') => (Raise e, s')
    end.

#[global] Instance M_ret : MRet M := @ret.
#[global] Instance M_bind : MBind M := fun A B k m => bind m k.

(** [return r] *)
Definition return_ {A} (r : Response) : M A := fun s => (Return r, s).

(** [raise e] *)
Definition raise {A} (e : Exn) : M A := fun s => (Raise e, s).

(** [if c: return r] *)
Definition return_if (c : bool) (r : Response) : M unit :=
  if c then return_ r else ret tt.

(** [try: body  except ...: handler]; [handler e = None] when no clause
    matches [e], which is then raised further. *)
Definition try_except {A} (body : M A) (handler : Exn -> option (M A)) : M A :=
  fun s =>
    match body s with
    | (Raise e, s') =>
        match handler e with
        | Some h => h s'
        | None => (Raise e, s')
        end
    | r => r
    end.

Definition log (ev : event) : M unit :=
  fun s => (Normal tt, mkState (fs s) (trace s ++ [ev])).

Definition get_fs : M FS := fun s => (Normal (fs s), s).

Definition put_fs (f : FS) : M unit := fun s => (Normal tt, mkState f (trace s)).

(** [jsonify(body), status] *)
Definition jsonify (body : list (string * text)) (status : Z) : Response :=
  Json body status.

(** ** The request *)

(** [request.is_json] and what [request.get_json()] parses the body to
    ([None]: the body is not JSON and [get_json] raises). *)
Record Request : Type := mkRequest {
  is_json : bool;
  json : option value
}.

Definition get_json (request : Request) : M value :=
  match json request with
  | Some v => ret v
  | None => raise (Exception "BadRequest" "400 Bad Request: Failed to decode JSON object")
  end.

(** [params.get(key, default)]: only a dict has [get]. *)
Definition py_get (params : value) (key : string) (default : value) : M value :=
  match params with
  | VDict d => ret (dict_get d key default)
  | v => raise (Exception "AttributeError"
                  ("'" ++ type_name v ++ "' object has no attribute 'get'"))
  end.

(** ** Validation (lines 44-73) *)

Record Params : Type := mkParams {
  model_name : value;
  precision : value;
  execution_provider : value;
  hf_token : value
}.

Definition validate (request : Request) : M Params :=
  return_if (negb (is_json request))
    (jsonify [("error", [Lit "Content-Type must be application/json"])] 400) ;;
  params ← get_json request;
  model_name ← py_get params "model" VNone;
  precision ← py_get params "precision" (VStr "fp32");
  execution_provider ← py_get params "execution_provider" (VStr "cpu");
  hf_token ← py_get params "token" VNone;
  return_if (negb (truthy model_name))
    (jsonify [("error", [Lit "model parameter is required"])] 400) ;;
  return_if (negb (py_in precision SUPPORTED_PRECISIONS))
    (jsonify [("error", [Lit "Unsupported precision: "; Fmt precision;
                         Lit ". Supported: "; FmtStrs SUPPORTED_PRECISIONS])] 400) ;;
  return_if (negb (py_in execution_provider SUPPORTED_EXECUTION_PROVIDERS))
    (jsonify [("error", [Lit "Unsupported execution_provider: "; Fmt execution_provider;
                         Lit ". Supported: "; FmtStrs SUPPORTED_EXECUTION_PROVIDERS])] 400) ;;
  return_if (negb (py_in2 precision execution_provider VALID_COMBINATIONS))
    (jsonify [("error", [Lit "Invalid combination: "; Fmt precision; Lit " + ";
                         Fmt execution_provider; Lit ". Valid combinations: ";
                         FmtPairs VALID_COMBINATIONS])] 400) ;;
  ret (mkParams model_name precision execution_provider hf_token).

(** ** Operating-system and library calls *)

(** [p] is [d] itself or lies below it. *)
Definition under (d p : string) : bool :=
  String.eqb p d || startswith (d ++ "/") p.

(** [tempfile.mkdtemp(dir=dir)]: a new directory [dir/tmp<name>]. *)
Definition mkdtemp (w : World) (dir : string) : M string :=
  let d := os_path_join dir ("tmp" ++ tempname w) in
  log (EvMkdtemp d);;
  f ← get_fs;
  put_fs (<[d := Dir]> f);;
  mret d.

(** The file system without [d] and everything below it. *)
Definition remove_tree (d : string) (f : FS) : FS :=
  filter (λ kv, under d kv.1 = false) f.

(** [shutil.rmtree(d)] *)
Definition rmtree (d : string) : M unit :=
  log (EvRmtree d);;
  f ← get_fs;
  put_fs (remove_tree d f).

(** [try: body  finally: cleanup] *)
Definition finally {A} (body : M A) (cleanup : M unit) : M A :=
  fun s =>
    match body s with
    | (o, s') =>
        match cleanup s' with
        | (Normal _, s'') => (o, s'')
        | (Return r, s'') => (Return r, s'')
        | (Raise e, s'') => (Raise e, s'')
        end
    end.

(** [with tempfile.TemporaryDirectory(dir=dir) as temp_dir: body]: the
    directory is removed however the body is left. *)
Definition with_TemporaryDirectory {A} (w : World) (dir : string)
    (body : string -> M A) : M A :=
  temp_dir ← mkdtemp w dir;
  finally (body temp_dir) (rmtree temp_dir).

(** The strings of a list of values, or the [TypeError] of [str.join] at
    the first item that is not a [str] ([i] is the index of the head). *)
Fixpoint as_strs (i : nat) (l : list value) : Exn + list string :=
  match l with
  | [] => inr []
  | VStr s :: l' =>
      match as_strs (S i) l' with
      | inr ss => inr (s :: ss)
      | inl e => inl e
      end
  | v :: _ =>
      inl (Exception "TypeError"
             ("sequence item " ++ NilEmpty.string_of_uint (Nat.to_uint i)
              ++ ": expected str instance, " ++ type_name v ++ " found"))
  end.

(** [sep.join(l)] on a list of values. *)
Definition py_join (sep : string) (l : list value) : M string :=
  match as_strs 0 l with
  | inr ss => mret (join sep ss)
  | inl e => raise e
  end.

Definition as_str (v : value) : option string :=
  match v with
  | VStr s => Some s
  | _ => None
  end.

(** The environment handed to the child must map strings to strings. *)
Definition env_strs (env : gmap string value) : option (gmap string string) :=
  if decide (map_Forall (λ _ v, is_Some (as_str v)) env)
  then Some (omap as_str env)
  else None.

(** [subprocess.run(command, check=True, capture_output=True, text=True,
    timeout=timeout, env=env)]: the captured [(stdout, stderr)] of a child
    that exited with status 0 in time.  A child still running at the
    deadline is killed and [TimeoutExpired] raised; a non-zero status
    raises [CalledProcessError] with the captured output. *)
Definition subprocess_run (w : World) (command : list value)
    (env : gmap string value) (timeout : Z) : M (string * string) :=
  log (EvRun command env timeout);;
  match as_strs 0 command, env_strs env with
  | inr args, Some envs =>
      f ← get_fs;
      match spawn w args envs timeout f with
      | inl e => raise e
      | inr (Running, f') =>
          put_fs f';; raise (TimeoutExpired args timeout)
      | inr (Exited rc out err, f') =>
          put_fs f';;
          if (rc =? 0)%Z then mret (out, err)
          else raise (CalledProcessError rc args out err)
      end
  | _, _ =>
      raise (Exception "TypeError" "expected str, bytes or os.PathLike object")
  end.

(** [os.path.exists(p)] *)
Definition os_path_exists (p : string) : M bool :=
  log (EvExists p);;
  f ← get_fs;
  mret (bool_decide (is_Some (f !! p))).

(** The rest of [s] after the prefix [p]. *)
Fixpoint strip_prefix (p s : string) : option string :=
  match p, s with
  | EmptyString, _ => Some s
  | String a p', String b s' => if Ascii.eqb a b then strip_prefix p' s' else None
  | String _ _, EmptyString => None
  end.

Fixpoint has_sep (s : string) : bool :=
  match s with
  | EmptyString => false
  | String a s' => Ascii.eqb a "/" || has_sep s'
  end.

(** The name of [q] as an entry of the directory [p], if it is one. *)
Definition entry_name (p q : string) : option string :=
  match strip_prefix (p ++ "/") q with
  | Some (String a r) => if has_sep (String a r) then None else Some (String a r)
  | _ => None
  end.

Definition entries (p : string) (f : FS) : list string :=
  omap (entry_name p) (map_to_list f).*1.

(** [os.listdir(p)] *)
Definition os_listdir (p : string) : M (list string) :=
  log (EvListdir p);;
  f ← get_fs;
  match f !! p with
  | Some Dir => mret (entries p f)
  | Some (File _) => raise (Exception "NotADirectoryError" ("[Errno 20] Not a directory: '" ++ p ++ "'"))
  | None => raise (Exception "FileNotFoundError" ("[Errno 2] No such file or directory: '" ++ p ++ "'"))
  end.

(** [shutil.make_archive(base_name, format, root_dir)] *)
Definition shutil_make_archive (w : World) (base_name format root_dir : string) : M unit :=
  log (EvMakeArchive base_name format root_dir);;
  f ← get_fs;
  match make_archive w base_name format root_dir f with
  | (Some e, f') => put_fs f';; raise e
  | (None, f') => put_fs f'
  end.

(** [send_file(path, as_attachment=.., download_name=.., mimetype=..)]:
    the file is opened here, so the response carries its content. *)
Definition send_file (path : string) (as_attachment : bool)
    (download_name mimetype : string) : M Response :=
  log (EvSendFile path);;
  f ← get_fs;
  match f !! path with
  | Some (File c) => mret (SendFile path c as_attachment download_name mimetype)
  | Some Dir => raise (Exception "IsADirectoryError" ("[Errno 21] Is a directory: '" ++ path ++ "'"))
  | None => raise (Exception "FileNotFoundError" ("[Errno 2] No such file or directory: '" ++ path ++ "'"))
  end.

(** [v.replace(old, new)]: a method of [str]. *)
Definition py_replace (v : value) (old new : ascii) : M string :=
  match v with
  | VStr s => mret (replace old new s)
  | _ => raise (Exception "AttributeError"
                  ("'" ++ type_name v ++ "' object has no attribute 'replace'"))
  end.

(** [format(v)] inside an f-string whose result is used as a string.  The
    text of a list or dict is not modelled: the view formats this way only
    the precision and the execution provider of a request that passed
    validation, and those are strings (see [job_path]). *)
Definition format (v : value) : M string :=
  match v with
  | VStr s => mret s
  | VNone => mret "None"
  | VBool true => mret "True"
  | VBool false => mret "False"
  | VInt z => mret (NilZero.string_of_int (Z.to_int z))
  | VList _ | VDict _ => raise (Exception "NotModelled" "str() of a list or dict")
  end.

(** ** Job execution and packaging (lines 78-159) *)

(** The command line (lines 82-88). *)
Definition build_command (model_name precision execution_provider : value)
    (output_path : string) : list value :=
  [ VStr "python"; VStr "-m"; VStr "onnxruntime_genai.models.builder";
    VStr "--model"; model_name;
    VStr "--precision"; precision;
    VStr "--execution_provider"; execution_provider;
    VStr "--output"; VStr output_path ].

(** The environment of the child (lines 94-102): a copy of the server's,
    with the token or with the settings for public models. *)
Definition build_env (w : World) (hf_token : value) : gmap string value :=
  let env : gmap string value := VStr <$> environ w in
  if truthy hf_token
  then <["HUGGING_FACE_HUB_TOKEN" := hf_token]> (<["HF_TOKEN" := hf_token]> env)
  else <["HF_HUB_OFFLINE" := VStr "0"]>
         (<["TRANSFORMERS_OFFLINE" := VStr "0"]>
            (<["HF_HUB_DISABLE_TELEMETRY" := VStr "1"]> env)).

(** The two handlers of the [try] around [subprocess.run] (lines 118-128). *)
Definition run_handlers (e : Exn) : option (M unit) :=
  match e with
  | TimeoutExpired _ _ =>
      Some (return_ (jsonify
        [("error", [Lit "Model generation timed out (30 minutes limit)"])] 408))
  | CalledProcessError _ _ stdout stderr =>
      Some (return_ (jsonify
        [("error", [Lit "Model generation failed"]);
         ("details", [Lit stderr]);
         ("stdout", [Lit stdout])] 500))
  | Exception _ _ => None
  end.

(** Lines 136-159: name the archive, create it, send it. *)
Definition package (w : World) (temp_dir output_path : string)
    (model_name precision execution_provider : value) : M unit :=
  stem ← py_replace model_name "/" "_";
  sp ← format precision;
  se ← format execution_provider;
  let archive_name := stem ++ "_" ++ sp ++ "_" ++ se in
  let archive_path := os_path_join temp_dir archive_name in
  try_except
    (shutil_make_archive w archive_path "zip" output_path;;
     let archive_file := archive_path ++ ".zip" in
     ex ← os_path_exists archive_file;
     return_if (negb ex)
       (jsonify [("error", [Lit "Failed to create output archive"])] 500);;
     r ← send_file archive_file true (archive_name ++ ".zip") "application/zip";
     return_ r)
    (fun e =>
       Some (return_ (jsonify
         [("error", [Lit "Archive creation failed: "; FmtExn e])] 500))).

(** The body of the [with] block (lines 79-159). *)
Definition job_body (w : World) (p : Params) (temp_dir : string) : M unit :=
  let output_path := os_path_join temp_dir "model_output" in
  let command :=
    build_command (model_name p) (precision p) (execution_provider p) output_path in
  (* logger.info(f"Executing command: {' '.join(command)}") *)
  py_join " " command;;
  let env := build_env w (hf_token p) in
  try_except (subprocess_run w command env 1800;; mret tt) run_handlers;;
  ex ← os_path_exists output_path;
  empty ← (if negb ex then mret true
           else l ← os_listdir output_path; mret (negb (truthy_list l)));
  return_if empty
    (jsonify [("error", [Lit "No output generated from model conversion"])] 500);;
  package w temp_dir output_path (model_name p) (precision p) (execution_provider p).

Definition run_job (w : World) (p : Params) : M unit :=
  with_TemporaryDirectory w TEMP_DIR (job_body w p).

(** ** The view (lines 40-163) *)

Definition generate_model (w : World) (request : Request) : M unit :=
  try_except
    (p ← validate request; run_job w p)
    (fun e =>
       Some (return_ (jsonify
         [("error", [Lit "Internal server error: "; FmtExn e])] 500))).

(** What a request is answered before any resource is allocated: the
    response of a failed check, if any. *)
Definition rejection (request : Request) : option Response :=
  match validate request (mkState ∅ []) with
  | (Return r, _) => Some r
  | _ => None
  end.

(** The request passes every check of lines 44-73. *)
Definition accepted (request : Request) : bool :=
  match validate request (mkState ∅ []) with
  | (Normal _, _) => true
  | _ => false
  end.

(** A request whose JSON body has exactly the three fields given. *)
Definition request_of (model precision execution_provider : string) : Request :=
  mkRequest true
    (Some (VDict [ ("model", VStr model); ("precision", VStr precision);
                   ("execution_provider", VStr execution_provider) ])).

(** The parameters read from the members [d] of a JSON object
    (lines 48-51). *)
Definition params_of (d : list (string * value)) : Params :=
  mkParams (dict_get d "model" VNone)
           (dict_get d "precision" (VStr "fp32"))
           (dict_get d "execution_provider" (VStr "cpu"))
           (dict_get d "token" VNone).

(** The error bodies of lines 45-73, by name. *)
Definition err_content_type : Response :=
  Json [("error", [Lit "Content-Type must be application/json"])] 400.

Definition err_missing_model : Response :=
  Json [("error", [Lit "model parameter is required"])] 400.

Definition err_precision (precision : value) : Response :=
  Json [("error", [Lit "Unsupported precision: "; Fmt precision;
                   Lit ". Supported: "; FmtStrs SUPPORTED_PRECISIONS])] 400.

Definition err_provider (execution_provider : value) : Response :=
  Json [("error", [Lit "Unsupported execution_provider: "; Fmt execution_provider;
                   Lit ". Supported: "; FmtStrs SUPPORTED_EXECUTION_PROVIDERS])] 400.

Definition err_combination (precision execution_provider : value) : Response :=
  Json [("error", [Lit "Invalid combination: "; Fmt precision; Lit " + ";
                   Fmt execution_provider; Lit ". Valid combinations: ";
                   FmtPairs VALID_COMBINATIONS])] 400.

Definition err_internal (e : Exn) : Response :=
  Json [("error", [Lit "Internal server error: "; FmtExn e])] 500.

#[global] Arguments py_in : simpl never.
#[global] Arguments py_in2 : simpl never.
#[global] Arguments dict_get : simpl never.
#[global] Arguments os_path_join : simpl never.
#[global] Arguments under : simpl never.
#[global] Arguments build_env : simpl never.
#[global] Arguments env_strs : simpl never.
#[global] Arguments entries : simpl never.
#[global] Arguments remove_tree : simpl never.

(** ** Names for what a job uses *)

(** The scoped temporary directory of a request served in world [w]. *)
Definition scoped_dir (w : World) : string :=
  os_path_join TEMP_DIR ("tmp" ++ tempname w).

(** The output directory given to the tool. *)
Definition output_dir (w : World) : string :=
  os_path_join (scoped_dir w) "model_output".

(** The command line of the job for parameters [p]. *)
Definition job_command (w : World) (p : Params) : list value :=
  build_command (model_name p) (precision p) (execution_provider p) (output_dir w).

(** The base name of the archive (line 136). *)
Definition archive_name (model precision execution_provider : string) : string :=
  replace "/" "_" model ++ "_" ++ precision ++ "_" ++ execution_provider.

(** The archive file of a job (lines 137 and 141). *)
Definition archive_file (w : World) (name : string) : string :=
  os_path_join (scoped_dir w) name ++ ".zip".

(** The runs of a child process recorded in a trace. *)
Definition runs (tr : list event) : list (list value * gmap string value * Z) :=
  omap (fun ev => match ev with
                  | EvRun c e t => Some (c, e, t)
                  | _ => None
                  end) tr.

(** Whether an event belongs to the output check or to packaging. *)
Definition after_run (ev : event) : bool :=
  match ev with
  | EvExists _ | EvListdir _ | EvMakeArchive _ _ _ | EvSendFile _ => true
  | _ => false
  end.

(** Whether an event belongs to packaging. *)
Definition packaging (ev : event) : bool :=
  match ev with
  | EvMakeArchive _ _ _ | EvSendFile _ => true
  | _ => false
  end.

(** The responses of the job stage, by name. *)
Definition err_timeout : Response :=
  Json [("error", [Lit "Model generation timed out (30 minutes limit)"])] 408.

Definition err_failed (stdout stderr : string) : Response :=
  Json [("error", [Lit "Model generation failed"]);
        ("details", [Lit stderr]);
        ("stdout", [Lit stdout])] 500.

Definition err_no_output : Response :=
  Json [("error", [Lit "No output generated from model conversion"])] 500.

Definition err_archive_missing : Response :=
  Json [("error", [Lit "Failed to create output archive"])] 500.

Definition err_archive (e : Exn) : Response :=
  Json [("error", [Lit "Archive creation failed: "; FmtExn e])] 500.

(** ** The order of the checks, as the specification words it *)

(** The five checks a request goes through. *)
Inductive check : Type :=
| ContentType
| ModelPresent
| PrecisionSupported
| ProviderSupported
| CombinationValid.

(** Their precedence. *)
Definition check_order : list check :=
  [ContentType; ModelPresent; PrecisionSupported; ProviderSupported; CombinationValid].

(** Whether a check, taken alone, holds of a request with the given
    content type and parameters. *)
Definition holds (c : check) (is_json : bool) (p : Params) : bool :=
  match c with
  | ContentType => is_json
  | ModelPresent => truthy (model_name p)
  | PrecisionSupported => py_in (precision p) SUPPORTED_PRECISIONS
  | ProviderSupported => py_in (execution_provider p) SUPPORTED_EXECUTION_PROVIDERS
  | CombinationValid =>
      py_in2 (precision p) (execution_provider p) VALID_COMBINATIONS
  end.

(** The error that reports a failed check. *)
Definition check_error (c : check) (p : Params) : Response :=
  match c with
  | ContentType => err_content_type
  | ModelPresent => err_missing_model
  | PrecisionSupported => err_precision (precision p)
  | ProviderSupported => err_provider (execution_provider p)
  | CombinationValid => err_combination (precision p) (execution_provider p)
  end.

(** The first check in precedence order that fails, if any. *)
Definition first_failing (is_json : bool) (p : Params) : option check :=
  find (fun c => negb (holds c is_json p)) check_order.

(** The pairs of the product of the supported precisions and providers
    that are valid combinations. *)
Definition passing_pairs : list (string * string) :=
  [ ("fp16", "cuda"); ("fp16", "dml"); ("fp16", "NvTensorRtRtx");
    ("fp32", "cpu"); ("fp32", "cuda");
    ("int4", "cpu"); ("int4", "cuda"); ("int4", "dml"); ("int4", "webgpu") ].

(** ** Stub tools *)

(** The file system after start-up (lines 31-32). *)
Definition base_fs : FS := <["/app/outputs" := Dir]> (<["/app/tmp" := Dir]> ∅).

Definition initial (f : FS) : State := mkState f [].

(** The directory given after [--output]: the last argument. *)
Definition output_arg (args : list string) : string := List.last args "".

(** A tool that writes two files into its output directory and exits 0. *)
Definition two_files_tool (args : list string) (env : gmap string string)
    (timeout : Z) (f : FS) : Exn + (Completion * FS) :=
  let out := output_arg args in
  inr (Exited 0 "done" "",
       <[out ++ "/genai_config.json" := File "{}"]>
         (<[out ++ "/model.onnx" := File "onnx"]> (<[out := Dir]> f))).

(** A tool that is still running at the deadline. *)
Definition hanging_tool (args : list string) (env : gmap string string)
    (timeout : Z) (f : FS) : Exn + (Completion * FS) :=
  inr (Running, <[output_arg args := Dir]> f).

(** A tool that fails with status 1. *)
Definition failing_tool (args : list string) (env : gmap string string)
    (timeout : Z) (f : FS) : Exn + (Completion * FS) :=
  inr (Exited 1 "loading model" "Traceback: unsupported architecture", f).

(** A tool that exits 0 and writes nothing. *)
Definition silent_tool (args : list string) (env : gmap string string)
    (timeout : Z) (f : FS) : Exn + (Completion * FS) :=
  inr (Exited 0 "" "", f).

(** An archiver that writes [base_name.format]. *)
Definition zip_archiver (base_name format root_dir : string) (f : FS)
    : option Exn * FS :=
  (None, <[base_name ++ "." ++ format := File ("archive of " ++ root_dir)]> f).

(** An archiver that fails. *)
Definition broken_archiver (base_name format root_dir : string) (f : FS)
    : option Exn * FS :=
  (Some (Exception "OSError" "[Errno 28] No space left on device"), f).

Definition stub_world
    (tool : list string -> gmap string string -> Z -> FS -> Exn + (Completion * FS))
    (archiver : string -> string -> string -> FS -> option Exn * FS) : World :=
  mkWorld (<["PATH" := "/usr/local/bin:/usr/bin"]> ∅) "k3x9_q2a" tool archiver.

(** ** The paths through a job *)

(** Every way a job can go, read off lines 78-159: how the block is left,
    the file system just before the temporary directory is removed, and
    the calls made between its creation and its removal. *)
Section Paths.
Variables (w : World) (p : Params) (f : FS).

Let d := scoped_dir w.
Let out := output_dir w.
Let cmd := job_command w p.
Let env := build_env w (hf_token p).
Let f0 : FS := <[d := Dir]> f.

(** The ways packaging the output under the name [name] can go. *)
Inductive package_path (name : string) : FS -> Response -> FS -> list event -> Prop :=
| path_archive_raises f1 ex f2 :
    make_archive w (os_path_join d name) "zip" out f1 = (Some ex, f2) ->
    package_path name f1 (err_archive ex) f2
      [EvMakeArchive (os_path_join d name) "zip" out]
| path_archive_missing f1 f2 :
    make_archive w (os_path_join d name) "zip" out f1 = (None, f2) ->
    f2 !! archive_file w name = None ->
    package_path name f1 err_archive_missing f2
      [EvMakeArchive (os_path_join d name) "zip" out;
       EvExists (archive_file w name)]
| path_archive_is_directory f1 f2 :
    make_archive w (os_path_join d name) "zip" out f1 = (None, f2) ->
    f2 !! archive_file w name = Some Dir ->
    package_path name f1
      (err_archive (Exception "IsADirectoryError"
                      ("[Errno 21] Is a directory: '" ++ archive_file w name ++ "'")))
      f2
      [EvMakeArchive (os_path_join d name) "zip" out;
       EvExists (archive_file w name); EvSendFile (archive_file w name)]
| path_sent f1 f2 c :
    make_archive w (os_path_join d name) "zip" out f1 = (None, f2) ->
    f2 !! archive_file w name = Some (File c) ->
    package_path name f1
      (SendFile (archive_file w name) c true (name ++ ".zip") "application/zip")
      f2
      [EvMakeArchive (os_path_join d name) "zip" out;
       EvExists (archive_file w name); EvSendFile (archive_file w name)].

Inductive job_path : outcome unit -> FS -> list event -> Prop :=
| path_bad_command ex :
    as_strs 0 cmd = inl ex ->
    job_path (Raise ex) f0 []
| path_bad_env args :
    as_strs 0 cmd = inr args ->
    env_strs env = None ->
    job_path (Raise (Exception "TypeError" "expected str, bytes or os.PathLike object"))
      f0 [EvRun cmd env 1800]
| path_spawn_error args envs ex :
    as_strs 0 cmd = inr args ->
    env_strs env = Some envs ->
    spawn w args envs 1800 f0 = inl ex ->
    job_path
      match ex with
      | TimeoutExpired _ _ => Return err_timeout
      | CalledProcessError _ _ o er => Return (err_failed o er)
      | Exception _ _ => Raise ex
      end
      f0 [EvRun cmd env 1800]
| path_timeout args envs f1 :
    as_strs 0 cmd = inr args ->
    env_strs env = Some envs ->
    spawn w args envs 1800 f0 = inr (Running, f1) ->
    job_path (Return err_timeout) f1 [EvRun cmd env 1800]
| path_failed args envs rc o er f1 :
    as_strs 0 cmd = inr args ->
    env_strs env = Some envs ->
    spawn w args envs 1800 f0 = inr (Exited rc o er, f1) ->
    rc <> 0%Z ->
    job_path (Return (err_failed o er)) f1 [EvRun cmd env 1800]
| path_output_missing args envs o er f1 :
    as_strs 0 cmd = inr args ->
    env_strs env = Some envs ->
    spawn w args envs 1800 f0 = inr (Exited 0 o er, f1) ->
    f1 !! out = None ->
    job_path (Return err_no_output) f1 [EvRun cmd env 1800; EvExists out]
| path_output_not_a_directory args envs o er f1 c :
    as_strs 0 cmd = inr args ->
    env_strs env = Some envs ->
    spawn w args envs 1800 f0 = inr (Exited 0 o er, f1) ->
    f1 !! out = Some (File c) ->
    job_path
      (Raise (Exception "NotADirectoryError"
                ("[Errno 20] Not a directory: '" ++ out ++ "'")))
      f1 [EvRun cmd env 1800; EvExists out; EvListdir out]
| path_output_empty args envs o er f1 :
    as_strs 0 cmd = inr args ->
    env_strs env = Some envs ->
    spawn w args envs 1800 f0 = inr (Exited 0 o er, f1) ->
    f1 !! out = Some Dir ->
    entries out f1 = [] ->
    job_path (Return err_no_output) f1
      [EvRun cmd env 1800; EvExists out; EvListdir out]
| path_packaged args envs o er f1 m pr e r f2 evs :
    as_strs 0 cmd = inr args ->
    env_strs env = Some envs ->
    spawn w args envs 1800 f0 = inr (Exited 0 o er, f1) ->
    f1 !! out = Some Dir ->
    entries out f1 <> [] ->
    model_name p = VStr m ->
    precision p = VStr pr ->
    execution_provider p = VStr e ->
    package_path (archive_name m pr e) f1 r f2 evs ->
    job_path (Return r) f2
      ([EvRun cmd env 1800; EvExists out; EvListdir out] ++ evs)%list.
End Paths.

(** ** A sample job *)

(** The request of the end-to-end scenarios. *)
Definition gpt2_request : Request := request_of "gpt2" "fp32" "cpu".

Definition gpt2_params : Params :=
  mkParams (VStr "gpt2") (VStr "fp32") (VStr "cpu") VNone.

(** Its temporary directory in a [stub_world], and what its child is given. *)
Definition gpt2_dir : string := "/app/tmp/tmpk3x9_q2a".

Definition gpt2_args : list string :=
  [ "python"; "-m"; "onnxruntime_genai.models.builder";
    "--model"; "gpt2"; "--precision"; "fp32";
    "--execution_provider"; "cpu";
    "--output"; "/app/tmp/tmpk3x9_q2a/model_output" ].

Definition gpt2_env : gmap string string :=
  <["HF_HUB_OFFLINE" := "0"]>
    (<["TRANSFORMERS_OFFLINE" := "0"]>
       (<["HF_HUB_DISABLE_TELEMETRY" := "1"]>
          (<["PATH" := "/usr/local/bin:/usr/bin"]> ∅))).


(** ** The view that lists what is supported *)

(** [GET /models] (lines 165-182): the object given to [jsonify]; a tuple
    is serialised as an array.  The status is the default, 200. *)
Definition list_supported_models : value * Z :=
  (VDict
     [ ("supported_precisions", VList (map VStr SUPPORTED_PRECISIONS));
       ("supported_execution_providers", VList (map VStr SUPPORTED_EXECUTION_PROVIDERS));
       ("valid_combinations",
        VList (map (fun pe => VList [VStr pe.1; VStr pe.2]) VALID_COMBINATIONS));
       ("examples",
        VList [ VStr "microsoft/DialoGPT-medium";
                VStr "microsoft/DialoGPT-small";
                VStr "microsoft/phi-2";
                VStr "meta-llama/Llama-3.2-1B-Instruct";
                VStr "gpt2" ]);
       ("note", VStr "Any HuggingFace model compatible with onnxruntime-genai should work");
       ("default_execution_provider", VStr "cpu");
       ("token_info",
        VStr "Some models require a HuggingFace token. Pass it as 'token' parameter in the request.") ],
   200%Z).

(** The array a client finds under [key] in the answer of [/models]. *)
Definition advertised (key : string) : list value :=
  match dict_get (match list_supported_models.1 with VDict d => d | _ => [] end) key VNone with
  | VList l => l
  | _ => []
  end.

(** The value a client finds under [key] in the answer of [/models]. *)
Definition advertised_value (key : string) : value :=
  dict_get (match list_supported_models.1 with VDict d => d | _ => [] end) key VNone.

(** ** Notions used to state further properties *)

(** [key in d] *)
Definition has_key (d : list (string * value)) (key : string) : bool :=
  existsb (fun kv => String.eqb kv.1 key) d.

(** The tool writes only at or below the job's temporary directory. *)
Definition tool_confined (w : World) : Prop :=
  forall args envs timeout f c f',
    spawn w args envs timeout f = inr (c, f') ->
    forall q, under (scoped_dir w) q = false -> f' !! q = f !! q.

(** So does the archiver. *)
Definition archiver_confined (w : World) : Prop :=
  forall base_name format root_dir f ex f',
    make_archive w base_name format root_dir f = (ex, f') ->
    forall q, under (scoped_dir w) q = false -> f' !! q = f !! q.

(** ** More stub tools *)

(** The interpreter is not there. *)
Definition missing_tool (args : list string) (env : gmap string string)
    (timeout : Z) (f : FS) : Exn + (Completion * FS) :=
  inl (Exception "FileNotFoundError" "[Errno 2] No such file or directory: 'python'").

(** A tool that writes a regular file where its output directory should be. *)
Definition file_tool (args : list string) (env : gmap string string)
    (timeout : Z) (f : FS) : Exn + (Completion * FS) :=
  inr (Exited 0 "" "", <[output_arg args := File "onnx"]> f).

(** An archiver that reports success and writes nothing. *)
Definition idle_archiver (base_name format root_dir : string) (f : FS)
    : option Exn * FS :=
  (None, f).

(** An archiver that leaves a directory where the archive should be. *)
Definition directory_archiver (base_name format root_dir : string) (f : FS)
    : option Exn * FS :=
  (None, <[base_name ++ "." ++ format := Dir]> f).

(** The file system the two-files tool leaves for the sample job. *)
Definition gpt2_output_fs : FS :=
  <["/app/tmp/tmpk3x9_q2a/model_output/genai_config.json" := File "{}"]>
    (<["/app/tmp/tmpk3x9_q2a/model_output/model.onnx" := File "onnx"]>
       (<["/app/tmp/tmpk3x9_q2a/model_output" := Dir]>
          (<[gpt2_dir := Dir]> base_fs))).
(** * Properties *)

Ltac munfold :=
  unfold mbind, M_bind, mret, M_ret, bind, ret, return_if, return_, raise,
    log, get_fs, put_fs, jsonify in *.

(** ** Validation *)

Section Validation.
Variables (d : list (string * value)) (s : State).

Let request := mkRequest true (Some (VDict d)).
Let m := dict_get d "model" VNone.
Let p := dict_get d "precision" (VStr "fp32").
Let e := dict_get d "execution_provider" (VStr "cpu").

Lemma validate_not_json body :
  validate (mkRequest false body) s = (Return err_content_type, s).
Proof. reflexivity. Qed.

Lemma validate_missing_model :
  truthy m = false ->
  validate request s = (Return err_missing_model, s).
Proof.
  intros Hm. unfold validate, get_json, py_get. munfold. simpl.
  fold m. rewrite Hm. reflexivity.
Qed.

Lemma validate_bad_precision :
  truthy m = true -> py_in p SUPPORTED_PRECISIONS = false ->
  validate request s = (Return (err_precision p), s).
Proof.
  intros Hm Hp. unfold validate, get_json, py_get. munfold. simpl.
  fold m p. rewrite Hm, Hp. reflexivity.
Qed.

Lemma validate_bad_provider :
  truthy m = true -> py_in p SUPPORTED_PRECISIONS = true ->
  py_in e SUPPORTED_EXECUTION_PROVIDERS = false ->
  validate request s = (Return (err_provider e), s).
Proof.
  intros Hm Hp He. unfold validate, get_json, py_get. munfold. simpl.
  fold m p e. rewrite Hm, Hp, He. reflexivity.
Qed.

Lemma validate_bad_combination :
  truthy m = true -> py_in p SUPPORTED_PRECISIONS = true ->
  py_in e SUPPORTED_EXECUTION_PROVIDERS = true ->
  py_in2 p e VALID_COMBINATIONS = false ->
  validate request s = (Return (err_combination p e), s).
Proof.
  intros Hm Hp He Hc. unfold validate, get_json, py_get. munfold. simpl.
  fold m p e. rewrite Hm, Hp, He, Hc. reflexivity.
Qed.

Lemma validate_ok :
  truthy m = true -> py_in p SUPPORTED_PRECISIONS = true ->
  py_in e SUPPORTED_EXECUTION_PROVIDERS = true ->
  py_in2 p e VALID_COMBINATIONS = true ->
  validate request s = (Normal (params_of d), s).
Proof.
  intros Hm Hp He Hc. unfold validate, get_json, py_get. munfold. simpl.
  fold m p e. rewrite Hm, Hp, He, Hc. reflexivity.
Qed.
End Validation.

(** Validation neither reads nor changes the state. *)
Lemma validate_pure request s :
  validate request s = ((validate request (mkState ∅ [])).1, s).
Proof.
  destruct request as [[|] [v|]]; try reflexivity.
  destruct v; try reflexivity.
  destruct (truthy (dict_get d "model" VNone)) eqn:Hm;
    [|by rewrite !validate_missing_model].
  destruct (py_in (dict_get d "precision" (VStr "fp32")) SUPPORTED_PRECISIONS) eqn:Hp;
    [|by rewrite !validate_bad_precision].
  destruct (py_in (dict_get d "execution_provider" (VStr "cpu"))
              SUPPORTED_EXECUTION_PROVIDERS) eqn:He;
    [|by rewrite !validate_bad_provider].
  destruct (py_in2 (dict_get d "precision" (VStr "fp32"))
              (dict_get d "execution_provider" (VStr "cpu")) VALID_COMBINATIONS) eqn:Hc;
    [|by rewrite !validate_bad_combination].
  by rewrite !validate_ok.
Qed.

Lemma accepted_validate request s :
  accepted request = true -> exists p, validate request s = (Normal p, s).
Proof.
  unfold accepted. rewrite (validate_pure request s).
  destruct (validate request (mkState ∅ [])) as [[p| |] ?]; try discriminate.
  intros _. by exists p.
Qed.

Lemma rejection_validate request s r :
  rejection request = Some r -> validate request s = (Return r, s).
Proof.
  unfold rejection. rewrite (validate_pure request s).
  destruct (validate request (mkState ∅ [])) as [[p| |] ?]; try discriminate.
  by intros [= ->].
Qed.

(** A rejected request is answered at once: nothing else happens. *)
Lemma generate_model_rejected w request s r :
  validate request s = (Return r, s) ->
  generate_model w request s = (Return r, s).
Proof.
  intros H. unfold generate_model, try_except. munfold. by rewrite H.
Qed.

(** An accepted request goes on to the job. *)
Lemma generate_model_accepted w request s p :
  validate request s = (Normal p, s) ->
  generate_model w request s =
    try_except (run_job w p) (fun e => Some (return_ (err_internal e))) s.
Proof.
  intros H. unfold generate_model, try_except. munfold. by rewrite H.
Qed.

Lemma py_in_In (x : string) (l : list string) :
  py_in (VStr x) l = true <-> In x l.
Proof.
  unfold py_in. rewrite existsb_exists. split.
  - intros (y & Hy & Heq). simpl in Heq. apply String.eqb_eq in Heq. by subst.
  - intros H. exists x. split; [done|]. simpl. apply String.eqb_refl.
Qed.

Lemma py_in2_In (x y : string) (l : list (string * string)) :
  py_in2 (VStr x) (VStr y) l = true <-> In (x, y) l.
Proof.
  unfold py_in2. rewrite existsb_exists. split.
  - intros ([a b] & Hab & Heq). simpl in Heq.
    apply andb_true_iff in Heq as [H1 H2].
    apply String.eqb_eq in H1, H2. by subst.
  - intros H. exists (x, y). split; [done|]. simpl. by rewrite !String.eqb_refl.
Qed.

(** C1, as the claim states it, fails: the pair (bf16, cuda) is one of the
    ten listed combinations, yet a request with it is rejected (at the
    precision check), so the ten do not all pass. *)
Lemma bf16_cuda_listed_but_rejected :
  In ("bf16", "cuda") VALID_COMBINATIONS
  /\ accepted (request_of "gpt2" "bf16" "cuda") = false
  /\ generate_model (stub_world two_files_tool zip_archiver)
       (request_of "gpt2" "bf16" "cuda") (initial base_fs)
     = (Return (err_precision (VStr "bf16")), initial base_fs).
Proof.
  split; [|split].
  - simpl. tauto.
  - reflexivity.
  - reflexivity.
Qed.

(** C1 (amended): for every pair drawn from the supported precisions and
    the supported execution providers, a request with a non-empty model
    passes validation if and only if the pair is in VALID_COMBINATIONS;
    the pairs of the product that pass are exactly the nine listed
    combinations whose precision is supported (all but (bf16, cuda)). *)
Theorem product_pair_accepted_iff_valid (d : list (string * value)) (p e : string) :
  truthy (dict_get d "model" VNone) = true ->
  dict_get d "precision" (VStr "fp32") = VStr p ->
  dict_get d "execution_provider" (VStr "cpu") = VStr e ->
  In p SUPPORTED_PRECISIONS ->
  In e SUPPORTED_EXECUTION_PROVIDERS ->
  (accepted (mkRequest true (Some (VDict d))) = true <-> In (p, e) VALID_COMBINATIONS)
  /\ (accepted (mkRequest true (Some (VDict d))) = true <-> In (p, e) passing_pairs)
  /\ (forall a m,
        List.filter (fun pe => accepted (request_of (String a m) pe.1 pe.2))
          (list_prod SUPPORTED_PRECISIONS SUPPORTED_EXECUTION_PROVIDERS)
        = passing_pairs)
  /\ length passing_pairs = 9%nat.
Proof.
  intros Hm Hp He Hip Hie.
  assert (Hacc : accepted (mkRequest true (Some (VDict d))) = true
                 <-> In (p, e) VALID_COMBINATIONS).
  { unfold accepted.
    destruct (py_in2 (VStr p) (VStr e) VALID_COMBINATIONS) eqn:Hc.
    - rewrite validate_ok; rewrite ?Hp, ?He; try done; try by apply py_in_In.
      split; [intros _|done]. by apply py_in2_In.
    - rewrite validate_bad_combination; rewrite ?Hp, ?He; try done;
        try by apply py_in_In.
      split; [done|]. intros Hin. apply py_in2_In in Hin. congruence. }
  split; [exact Hacc|]. split; [|split; [|reflexivity]].
  - rewrite Hacc. clear -Hip Hie.
    assert (Hvalid : In (p, e) VALID_COMBINATIONS -> In p SUPPORTED_PRECISIONS
                     -> In (p, e) passing_pairs).
    { simpl. intros Hv Hs.
      repeat (destruct Hv as [[= <- <-]|Hv]; [intuition discriminate|]). done. }
    split; [by auto|].
    simpl. intros H. repeat (destruct H as [[= <- <-]|H]; [tauto|]). done.
  - intros a m. reflexivity.
Qed.

Lemma product_pair_accepted_iff_valid_witness :
  let d := [ ("model", VStr "gpt2"); ("precision", VStr "fp16");
             ("execution_provider", VStr "dml") ] in
  (accepted (mkRequest true (Some (VDict d))) = true
   <-> In ("fp16", "dml") VALID_COMBINATIONS)
  /\ (accepted (mkRequest true (Some (VDict d))) = true
      <-> In ("fp16", "dml") passing_pairs)
  /\ (forall a m,
        List.filter (fun pe => accepted (request_of (String a m) pe.1 pe.2))
          (list_prod SUPPORTED_PRECISIONS SUPPORTED_EXECUTION_PROVIDERS)
        = passing_pairs)
  /\ length passing_pairs = 9%nat.
Proof.
  apply (product_pair_accepted_iff_valid
           [ ("model", VStr "gpt2"); ("precision", VStr "fp16");
             ("execution_provider", VStr "dml") ] "fp16" "dml").
  - reflexivity.
  - reflexivity.
  - reflexivity.
  - simpl. tauto.
  - simpl. tauto.
Defined.

(** C2, as the claim states it, fails: with no model (or an empty one) a
    bf16 request is answered by the missing-model error, which comes
    first; the precision check is not reached. *)
Lemma bf16_without_model_is_missing_model :
  generate_model (stub_world two_files_tool zip_archiver)
    (mkRequest true (Some (VDict [ ("model", VStr ""); ("precision", VStr "bf16");
                                   ("execution_provider", VStr "cuda") ])))
    (initial base_fs)
  = (Return err_missing_model, initial base_fs)
  /\ err_missing_model <> err_precision (VStr "bf16").
Proof. split; [reflexivity | discriminate]. Qed.

(** C2 (amended): for every JSON request with a non-empty model whose
    precision is "bf16", whatever the execution provider, the view answers
    400 with the unsupported-precision error of the precision-membership
    check and does nothing else; the combination check is not reached,
    although (bf16, cuda) is in VALID_COMBINATIONS. *)
Theorem bf16_rejected_at_precision_check (w : World) (d : list (string * value))
    (s : State) :
  truthy (dict_get d "model" VNone) = true ->
  dict_get d "precision" (VStr "fp32") = VStr "bf16" ->
  generate_model w (mkRequest true (Some (VDict d))) s
    = (Return (err_precision (VStr "bf16")), s)
  /\ status_code (err_precision (VStr "bf16")) = 400%Z
  /\ err_precision (VStr "bf16")
       <> err_combination (VStr "bf16") (dict_get d "execution_provider" (VStr "cpu"))
  /\ In ("bf16", "cuda") VALID_COMBINATIONS.
Proof.
  intros Hm Hp. split; [|split; [reflexivity|split; [discriminate|simpl; tauto]]].
  apply generate_model_rejected.
  rewrite validate_bad_precision; rewrite ?Hp; done.
Qed.

Lemma bf16_rejected_at_precision_check_witness :
  let d := [ ("model", VStr "microsoft/phi-2"); ("precision", VStr "bf16");
             ("execution_provider", VStr "cuda") ] in
  generate_model (stub_world two_files_tool zip_archiver)
    (mkRequest true (Some (VDict d))) (initial base_fs)
    = (Return (err_precision (VStr "bf16")), initial base_fs)
  /\ status_code (err_precision (VStr "bf16")) = 400%Z
  /\ err_precision (VStr "bf16")
       <> err_combination (VStr "bf16") (dict_get d "execution_provider" (VStr "cpu"))
  /\ In ("bf16", "cuda") VALID_COMBINATIONS.
Proof.
  apply (bf16_rejected_at_precision_check
           (stub_world two_files_tool zip_archiver)
           [ ("model", VStr "microsoft/phi-2"); ("precision", VStr "bf16");
             ("execution_provider", VStr "cuda") ] (initial base_fs)).
  - reflexivity.
  - reflexivity.
Defined.

(** C3: every request with a non-empty model, precision "int8" and a
    supported execution provider is answered 400 with the
    invalid-combination error: int8 is a supported precision but occurs
    in no valid combination.  So is the request gpt2 / int8 / cpu. *)
Theorem int8_always_invalid_combination (w : World) (d : list (string * value))
    (e : string) (s : State) :
  truthy (dict_get d "model" VNone) = true ->
  dict_get d "precision" (VStr "fp32") = VStr "int8" ->
  dict_get d "execution_provider" (VStr "cpu") = VStr e ->
  In e SUPPORTED_EXECUTION_PROVIDERS ->
  generate_model w (mkRequest true (Some (VDict d))) s
    = (Return (err_combination (VStr "int8") (VStr e)), s)
  /\ status_code (err_combination (VStr "int8") (VStr e)) = 400%Z
  /\ In "int8" SUPPORTED_PRECISIONS
  /\ (forall e', ~ In ("int8", e') VALID_COMBINATIONS)
  /\ generate_model w (request_of "gpt2" "int8" "cpu") s
     = (Return (err_combination (VStr "int8") (VStr "cpu")), s).
Proof.
  intros Hm Hp He Hie.
  assert (Hno : forall e', ~ In ("int8", e') VALID_COMBINATIONS).
  { intros e' H. simpl in H.
    repeat (destruct H as [[=]|H]). done. }
  split; [|split; [reflexivity|split; [simpl; tauto|split; [exact Hno|reflexivity]]]].
  apply generate_model_rejected.
  pose proof (validate_bad_combination d s) as Hv. rewrite Hp, He in Hv.
  apply Hv; [exact Hm | reflexivity | by apply py_in_In |].
  destruct (py_in2 (VStr "int8") (VStr e) VALID_COMBINATIONS) eqn:Hc; [|done].
  apply py_in2_In in Hc. by apply Hno in Hc.
Qed.

Lemma int8_always_invalid_combination_witness :
  let w := stub_world two_files_tool zip_archiver in
  let d := [ ("model", VStr "gpt2"); ("precision", VStr "int8");
             ("execution_provider", VStr "cuda") ] in
  generate_model w (mkRequest true (Some (VDict d))) (initial base_fs)
    = (Return (err_combination (VStr "int8") (VStr "cuda")), initial base_fs)
  /\ status_code (err_combination (VStr "int8") (VStr "cuda")) = 400%Z
  /\ In "int8" SUPPORTED_PRECISIONS
  /\ (forall e', ~ In ("int8", e') VALID_COMBINATIONS)
  /\ generate_model w (request_of "gpt2" "int8" "cpu") (initial base_fs)
     = (Return (err_combination (VStr "int8") (VStr "cpu")), initial base_fs).
Proof.
  apply (int8_always_invalid_combination
           (stub_world two_files_tool zip_archiver)
           [ ("model", VStr "gpt2"); ("precision", VStr "int8");
             ("execution_provider", VStr "cuda") ] "cuda" (initial base_fs)).
  - reflexivity.
  - reflexivity.
  - reflexivity.
  - simpl. tauto.
Defined.


(** The view's validation is the first failing check of [check_order]. *)
Lemma validate_first_failing (j : bool) (d : list (string * value)) (s : State) :
  validate (mkRequest j (Some (VDict d))) s =
    (match first_failing j (params_of d) with
     | Some c => Return (check_error c (params_of d))
     | None => Normal (params_of d)
     end, s).
Proof.
  destruct j; [|reflexivity].
  unfold first_failing, check_order, find, holds, params_of; simpl.
  destruct (truthy (dict_get d "model" VNone)) eqn:Hm; simpl;
    [|by rewrite validate_missing_model].
  destruct (py_in (dict_get d "precision" (VStr "fp32")) SUPPORTED_PRECISIONS) eqn:Hp;
    simpl; [|by rewrite validate_bad_precision].
  destruct (py_in (dict_get d "execution_provider" (VStr "cpu"))
              SUPPORTED_EXECUTION_PROVIDERS) eqn:He;
    simpl; [|by rewrite validate_bad_provider].
  destruct (py_in2 (dict_get d "precision" (VStr "fp32"))
              (dict_get d "execution_provider" (VStr "cpu")) VALID_COMBINATIONS) eqn:Hc;
    simpl; [|by rewrite validate_bad_combination].
  by rewrite validate_ok.
Qed.

Lemma params_of_model (m : value) (d : list (string * value)) :
  params_of (("model", m) :: d) =
    mkParams m (precision (params_of d)) (execution_provider (params_of d))
      (hf_token (params_of d)).
Proof. reflexivity. Qed.

(** C10: the checks run in the order content type, model present,
    precision supported, provider supported, combination valid, and the
    answer to a request is the error of the first check that fails in
    that order (so a request with no model and an unknown precision gets
    the missing-model error); a request that fails none goes on with its
    parameters.  The model is only tested for being non-empty: two
    requests that differ in their non-empty models get the same verdict. *)
Theorem checks_run_in_precedence_order (w : World) (j : bool)
    (d : list (string * value)) (m m' : value) (s : State) :
  truthy m = true ->
  truthy m' = true ->
  (forall body,
      generate_model w (mkRequest false body) s = (Return err_content_type, s))
  /\ match first_failing j (params_of d) with
     | Some c =>
         generate_model w (mkRequest j (Some (VDict d))) s
           = (Return (check_error c (params_of d)), s)
     | None =>
         validate (mkRequest j (Some (VDict d))) s = (Normal (params_of d), s)
     end
  /\ generate_model w (mkRequest true (Some (VDict [("precision", VStr "fp64")]))) s
     = (Return err_missing_model, s)
  /\ rejection (mkRequest j (Some (VDict (("model", m) :: d))))
     = rejection (mkRequest j (Some (VDict (("model", m') :: d))))
  /\ accepted (mkRequest j (Some (VDict (("model", m) :: d))))
     = accepted (mkRequest j (Some (VDict (("model", m') :: d)))).
Proof.
  intros Hm Hm'. split; [|split; [|split]].
  - intros body. by apply generate_model_rejected.
  - pose proof (validate_first_failing j d s) as Hv.
    destruct (first_failing j (params_of d)); [|exact Hv].
    by apply generate_model_rejected.
  - by apply generate_model_rejected.
  - unfold rejection, accepted. rewrite !validate_first_failing, !params_of_model.
    unfold first_failing, check_order, find, holds; simpl.
    rewrite Hm, Hm'. simpl.
    destruct j; simpl; [|done].
    repeat (match goal with
            | |- context [negb ?b] => destruct b; simpl
            end); done.
Qed.

Lemma checks_run_in_precedence_order_witness :
  let w := stub_world two_files_tool zip_archiver in
  let d := [ ("precision", VStr "fp64"); ("execution_provider", VStr "tpu") ] in
  let m := VStr "gpt2" in
  let m' := VStr "an id of any shape // or size ..." in
  (forall body,
      generate_model w (mkRequest false body) (initial base_fs)
        = (Return err_content_type, initial base_fs))
  /\ match first_failing true (params_of d) with
     | Some c =>
         generate_model w (mkRequest true (Some (VDict d))) (initial base_fs)
           = (Return (check_error c (params_of d)), initial base_fs)
     | None =>
         validate (mkRequest true (Some (VDict d))) (initial base_fs)
           = (Normal (params_of d), initial base_fs)
     end
  /\ generate_model w (mkRequest true (Some (VDict [("precision", VStr "fp64")])))
       (initial base_fs)
     = (Return err_missing_model, initial base_fs)
  /\ rejection (mkRequest true (Some (VDict (("model", m) :: d))))
     = rejection (mkRequest true (Some (VDict (("model", m') :: d))))
  /\ accepted (mkRequest true (Some (VDict (("model", m) :: d))))
     = accepted (mkRequest true (Some (VDict (("model", m') :: d)))).
Proof.
  apply (checks_run_in_precedence_order
           (stub_world two_files_tool zip_archiver) true
           [ ("precision", VStr "fp64"); ("execution_provider", VStr "tpu") ]
           (VStr "gpt2") (VStr "an id of any shape // or size ...") (initial base_fs)).
  - reflexivity.
  - reflexivity.
Defined.

(** ** The job, path by path *)

Ltac mred :=
  cbv beta iota zeta delta
    [run_job with_TemporaryDirectory finally mkdtemp rmtree job_body py_join
     try_except subprocess_run os_path_exists os_listdir package
     shutil_make_archive send_file py_replace format
     mbind M_bind mret M_ret bind ret return_if return_ raise log get_fs put_fs
     jsonify run_handlers negb truthy_list];
  cbn [fs trace].

Lemma bool_decide_is_Some_None {A} (o : option A) :
  o = None -> bool_decide (is_Some o) = false.
Proof. intros ->. apply bool_decide_eq_false. by intros [? [=]]. Qed.

Lemma bool_decide_is_Some_Some {A} (o : option A) (a : A) :
  o = Some a -> bool_decide (is_Some o) = true.
Proof. intros ->. apply bool_decide_eq_true. by exists a. Qed.

Section Job.
Variables (w : World) (p : Params) (s : State).

Let d := scoped_dir w.
Let out := output_dir w.
Let cmd := job_command w p.
Let env := build_env w (hf_token p).
Let f0 : FS := <[d := Dir]> (fs s).

Ltac start :=
  mred; fold (scoped_dir w) (output_dir w) (job_command w p);
  fold d out cmd env f0.

(** The command holds a value that is not a string: [join] raises. *)
Lemma job_bad_command ex :
  as_strs 0 cmd = inl ex ->
  run_job w p s =
    (Raise ex,
     mkState (remove_tree d f0) (trace s ++ [EvMkdtemp d; EvRmtree d])%list).
Proof.
  intros Hargs. start. rewrite Hargs. mred.
  by rewrite <- !app_assoc.
Qed.

Section Spawned.
Variables (args : list string).
Hypothesis Hargs : as_strs 0 cmd = inr args.

(** The environment holds a value that is not a string. *)
Lemma job_bad_env :
  env_strs env = None ->
  run_job w p s =
    (Raise (Exception "TypeError" "expected str, bytes or os.PathLike object"),
     mkState (remove_tree d f0)
       (trace s ++ [EvMkdtemp d; EvRun cmd env 1800; EvRmtree d])%list).
Proof.
  intros Henv. start. rewrite Hargs. mred. rewrite Henv. mred.
  by rewrite <- !app_assoc.
Qed.

Variables (envs : gmap string string).
Hypothesis Henv : env_strs env = Some envs.

(** The child could not be run. *)
Lemma job_spawn_error ex :
  spawn w args envs 1800 f0 = inl ex ->
  run_job w p s =
    (match ex with
     | TimeoutExpired _ _ => Return err_timeout
     | CalledProcessError _ _ o er => Return (err_failed o er)
     | Exception _ _ => Raise ex
     end,
     mkState (remove_tree d f0)
       (trace s ++ [EvMkdtemp d; EvRun cmd env 1800; EvRmtree d])%list).
Proof.
  intros Hsp. start. rewrite Hargs. mred. rewrite Henv. mred.
  rewrite Hsp. mred. destruct ex; mred; by rewrite <- !app_assoc.
Qed.

(** The child is still running at the deadline. *)
Lemma job_timeout f1 :
  spawn w args envs 1800 f0 = inr (Running, f1) ->
  run_job w p s =
    (Return err_timeout,
     mkState (remove_tree d f1)
       (trace s ++ [EvMkdtemp d; EvRun cmd env 1800; EvRmtree d])%list).
Proof.
  intros Hsp. start. rewrite Hargs. mred. rewrite Henv. mred.
  rewrite Hsp. mred. by rewrite <- !app_assoc.
Qed.

(** The child exited with a non-zero status. *)
Lemma job_failed rc o er f1 :
  spawn w args envs 1800 f0 = inr (Exited rc o er, f1) ->
  rc <> 0%Z ->
  run_job w p s =
    (Return (err_failed o er),
     mkState (remove_tree d f1)
       (trace s ++ [EvMkdtemp d; EvRun cmd env 1800; EvRmtree d])%list).
Proof.
  intros Hsp Hrc. start. rewrite Hargs. mred. rewrite Henv. mred.
  rewrite Hsp. mred. apply Z.eqb_neq in Hrc. rewrite Hrc. mred.
  by rewrite <- !app_assoc.
Qed.

Section Exited0.
Variables (o er : string) (f1 : FS).
Hypothesis Hsp : spawn w args envs 1800 f0 = inr (Exited 0 o er, f1).

(** The child exited 0 and there is no output directory. *)
Lemma job_output_missing :
  f1 !! out = None ->
  run_job w p s =
    (Return err_no_output,
     mkState (remove_tree d f1)
       (trace s ++ [EvMkdtemp d; EvRun cmd env 1800; EvExists out;
                    EvRmtree d])%list).
Proof.
  intros Hout. start. rewrite Hargs. mred. rewrite Henv. mred.
  rewrite Hsp. mred. change (0 =? 0)%Z with true. mred.
  rewrite (bool_decide_is_Some_None _ Hout). mred.
  by rewrite <- !app_assoc.
Qed.

(** The child exited 0 and the output path is a file. *)
Lemma job_output_not_a_directory c :
  f1 !! out = Some (File c) ->
  run_job w p s =
    (Raise (Exception "NotADirectoryError"
              ("[Errno 20] Not a directory: '" ++ out ++ "'")),
     mkState (remove_tree d f1)
       (trace s ++ [EvMkdtemp d; EvRun cmd env 1800; EvExists out;
                    EvListdir out; EvRmtree d])%list).
Proof.
  intros Hout. start. rewrite Hargs. mred. rewrite Henv. mred.
  rewrite Hsp. mred. change (0 =? 0)%Z with true. mred.
  rewrite (bool_decide_is_Some_Some _ _ Hout). mred. rewrite Hout. mred.
  by rewrite <- !app_assoc.
Qed.

(** The child exited 0 and the output directory is empty. *)
Lemma job_output_empty :
  f1 !! out = Some Dir ->
  entries out f1 = [] ->
  run_job w p s =
    (Return err_no_output,
     mkState (remove_tree d f1)
       (trace s ++ [EvMkdtemp d; EvRun cmd env 1800; EvExists out;
                    EvListdir out; EvRmtree d])%list).
Proof.
  intros Hout Hent. start. rewrite Hargs. mred. rewrite Henv. mred.
  rewrite Hsp. mred. change (0 =? 0)%Z with true. mred.
  rewrite (bool_decide_is_Some_Some _ _ Hout). mred. rewrite Hout. mred.
  rewrite Hent. mred.
  by rewrite <- !app_assoc.
Qed.

(** The child exited 0 and left something: packaging starts. *)
Lemma job_reaches_packaging :
  f1 !! out = Some Dir ->
  entries out f1 <> [] ->
  run_job w p s =
    finally
      (package w d out (model_name p) (precision p) (execution_provider p))
      (rmtree d)
      (mkState f1
         (trace s ++ [EvMkdtemp d; EvRun cmd env 1800; EvExists out;
                      EvListdir out])%list).
Proof.
  intros Hout Hent. unfold finally. start. rewrite Hargs. mred.
  rewrite Henv. mred. rewrite Hsp. mred. change (0 =? 0)%Z with true. mred.
  rewrite (bool_decide_is_Some_Some _ _ Hout). mred. rewrite Hout. mred.
  destruct (entries out f1) as [|x l] eqn:He; [done|].
  mred. by rewrite <- !app_assoc.
Qed.
End Exited0.
End Spawned.
End Job.

Lemma finally_rmtree {A} (body : M A) (d : string) (s : State) :
  finally body (rmtree d) s =
    ((body s).1,
     mkState (remove_tree d (fs (body s).2)) (trace (body s).2 ++ [EvRmtree d])%list).
Proof. unfold finally, rmtree. munfold. by destruct (body s) as [o s']. Qed.

(** Packaging goes one of the four ways of [package_path]. *)
Lemma package_path_run w m pr e s1 r f2 evs :
  package_path w (archive_name m pr e) (fs s1) r f2 evs ->
  package w (scoped_dir w) (output_dir w) (VStr m) (VStr pr) (VStr e) s1
    = (Return r, mkState f2 (trace s1 ++ evs)%list).
Proof.
  intros H.
  inversion H as [f1 ex f2' Hmk | f1 f2' Hmk Hz | f1 f2' Hmk Hz | f1 f2' c Hmk Hz];
    subst; unfold archive_file in *; mred; fold (archive_name m pr e);
    rewrite Hmk; mred.
  - reflexivity.
  - rewrite (bool_decide_is_Some_None _ Hz). mred. by rewrite <- !app_assoc.
  - rewrite (bool_decide_is_Some_Some _ _ Hz). mred. rewrite Hz. mred.
    by rewrite <- !app_assoc.
  - rewrite (bool_decide_is_Some_Some _ _ Hz). mred. rewrite Hz. mred.
    by rewrite <- !app_assoc.
Qed.

Lemma package_path_total w name f1 :
  exists r f2 evs, package_path w name f1 r f2 evs.
Proof.
  destruct (make_archive w (os_path_join (scoped_dir w) name) "zip" (output_dir w) f1)
    as [[ex|] f2] eqn:Hmk.
  - eauto using path_archive_raises.
  - destruct (f2 !! archive_file w name) as [[c|]|] eqn:Hz.
    + eauto using path_sent.
    + eauto using path_archive_is_directory.
    + eauto using path_archive_missing.
Qed.

(** The arguments handed to the child are those of the command, and they
    are strings exactly when the three parameters are. *)
Lemma as_strs_command m pr e out args :
  as_strs 0 (build_command m pr e out) = inr args ->
  exists sm sp se,
    m = VStr sm /\ pr = VStr sp /\ e = VStr se
    /\ args = [ "python"; "-m"; "onnxruntime_genai.models.builder";
                "--model"; sm; "--precision"; sp;
                "--execution_provider"; se; "--output"; out ].
Proof.
  unfold build_command. simpl.
  destruct m; try discriminate. destruct pr; try discriminate.
  destruct e; try discriminate. intros [= <-]. eauto 10.
Qed.

Lemma as_strs_command_strings sm sp se out :
  as_strs 0 (build_command (VStr sm) (VStr sp) (VStr se) out)
  = inr [ "python"; "-m"; "onnxruntime_genai.models.builder";
          "--model"; sm; "--precision"; sp;
          "--execution_provider"; se; "--output"; out ].
Proof. reflexivity. Qed.

(** A job that goes along a path ends as the path says, with the
    temporary directory removed last. *)
Lemma job_path_run w p s o f evs :
  job_path w p (fs s) o f evs ->
  run_job w p s =
    (o, mkState (remove_tree (scoped_dir w) f)
          (trace s ++ EvMkdtemp (scoped_dir w) :: evs ++ [EvRmtree (scoped_dir w)])%list).
Proof.
  intros H. inversion H; subst.
  - by apply job_bad_command.
  - by eapply job_bad_env.
  - by eapply job_spawn_error.
  - by eapply job_timeout.
  - by eapply job_failed.
  - by eapply job_output_missing.
  - by eapply job_output_not_a_directory.
  - by eapply job_output_empty.
  - erewrite job_reaches_packaging by eauto.
    rewrite finally_rmtree.
    match goal with
    | Hm : model_name p = _, Hp : precision p = _, He : execution_provider p = _,
      Hk : package_path _ _ _ _ _ _ |- _ =>
        rewrite Hm, Hp, He;
        erewrite package_path_run by (simpl; exact Hk)
    end.
    simpl. by rewrite <- !app_assoc.
Qed.

(** Every job goes along one of the paths. *)
Lemma job_path_total w p f :
  exists o f' evs, job_path w p f o f' evs.
Proof.
  destruct (as_strs 0 (job_command w p)) as [ex|args] eqn:Hargs;
    [eauto using path_bad_command|].
  destruct (env_strs (build_env w (hf_token p))) as [envs|] eqn:Henv;
    [|eauto using path_bad_env].
  destruct (spawn w args envs 1800 (<[scoped_dir w := Dir]> f))
    as [ex|[[rc o er|] f1]] eqn:Hsp;
    [eauto using path_spawn_error| |eauto using path_timeout].
  destruct (decide (rc = 0%Z)) as [->|Hrc]; [|eauto using path_failed].
  destruct (f1 !! output_dir w) as [[c|]|] eqn:Hout;
    [eauto using path_output_not_a_directory| |eauto using path_output_missing].
  destruct (entries (output_dir w) f1) as [|x l] eqn:Hent;
    [eauto using path_output_empty|].
  destruct (as_strs_command _ _ _ _ _ Hargs) as (sm & sp & se & Hm & Hp & He & _).
  destruct (package_path_total w (archive_name sm sp se) f1) as (r & f2 & evs & Hk).
  do 3 eexists. eapply path_packaged; eauto. by rewrite Hent.
Qed.

(** The view on an accepted request: the job's answer, with any
    exception turned into the internal-error response. *)
Lemma generate_model_job w request s p o s' :
  validate request s = (Normal p, s) ->
  run_job w p s = (o, s') ->
  generate_model w request s =
    (match o with
     | Raise ex => Return (err_internal ex)
     | _ => o
     end, s').
Proof.
  intros Hv Hj. rewrite (generate_model_accepted _ _ _ _ Hv).
  unfold try_except. rewrite Hj. by destruct o.
Qed.

Lemma generate_model_raised w request s ex :
  validate request s = (Raise ex, s) ->
  generate_model w request s = (Return (err_internal ex), s).
Proof.
  intros H. unfold generate_model, try_except. munfold. by rewrite H.
Qed.

(** C4: when the child of a valid request is still running at the
    1800-second deadline, the view answers 408 with the timeout message,
    which is neither the failure response nor the internal-error response
    (both 500); after the run nothing but the removal of the temporary
    directory happens: no output check, no packaging. *)
Theorem timeout_answers_408 (w : World) (request : Request) (s : State)
    (p : Params) (args : list string) (envs : gmap string string) (f1 : FS) :
  validate request s = (Normal p, s) ->
  as_strs 0 (job_command w p) = inr args ->
  env_strs (build_env w (hf_token p)) = Some envs ->
  spawn w args envs 1800 (<[scoped_dir w := Dir]> (fs s)) = inr (Running, f1) ->
  generate_model w request s =
    (Return err_timeout,
     mkState (remove_tree (scoped_dir w) f1)
       (trace s ++ [ EvMkdtemp (scoped_dir w);
                     EvRun (job_command w p) (build_env w (hf_token p)) 1800;
                     EvRmtree (scoped_dir w) ])%list)
  /\ status_code err_timeout = 408%Z
  /\ (forall o er, err_timeout <> err_failed o er)
  /\ (forall ex, err_timeout <> err_internal ex)
  /\ forallb (fun ev => negb (after_run ev))
       [ EvMkdtemp (scoped_dir w);
         EvRun (job_command w p) (build_env w (hf_token p)) 1800;
         EvRmtree (scoped_dir w) ] = true.
Proof.
  intros Hv Hargs Henv Hsp.
  split; [|split; [reflexivity|split; [discriminate|split; [discriminate|reflexivity]]]].
  pose proof (job_timeout _ _ _ _ Hargs _ Henv _ Hsp) as Hj.
  by rewrite (generate_model_job _ _ _ _ _ _ Hv Hj).
Qed.

(** C6: when the child of a valid request exits with a non-zero status,
    the view answers 500 with the child's captured stderr (as "details")
    and stdout (as "stdout") unchanged; the child was run once. *)
Theorem nonzero_exit_answers_500_with_output (w : World) (request : Request)
    (s : State) (p : Params) (args : list string) (envs : gmap string string)
    (rc : Z) (out err : string) (f1 : FS) :
  validate request s = (Normal p, s) ->
  as_strs 0 (job_command w p) = inr args ->
  env_strs (build_env w (hf_token p)) = Some envs ->
  spawn w args envs 1800 (<[scoped_dir w := Dir]> (fs s))
    = inr (Exited rc out err, f1) ->
  rc <> 0%Z ->
  let s' := (generate_model w request s).2 in
  (generate_model w request s).1
    = Return (Json [ ("error", [Lit "Model generation failed"]);
                     ("details", [Lit err]);
                     ("stdout", [Lit out]) ] 500)
  /\ trace s' = (trace s ++ [ EvMkdtemp (scoped_dir w);
                              EvRun (job_command w p) (build_env w (hf_token p)) 1800;
                              EvRmtree (scoped_dir w) ])%list
  /\ runs (trace s')
     = (runs (trace s)
        ++ [(job_command w p, build_env w (hf_token p), 1800%Z)])%list.
Proof.
  intros Hv Hargs Henv Hsp Hrc. simpl.
  pose proof (job_failed _ _ _ _ Hargs _ Henv _ _ _ _ Hsp Hrc) as Hj.
  rewrite (generate_model_job _ _ _ _ _ _ Hv Hj).
  simpl. split; [reflexivity|split; [reflexivity|]].
  unfold runs. by rewrite omap_app.
Qed.

(** C5: when the child of a valid request exits 0 and the output
    directory does not exist or has no entries, the view answers 500 with
    "No output generated from model conversion", which is not the
    response to a non-zero exit; no packaging call is made. *)
Theorem empty_output_answers_500 (w : World) (request : Request) (s : State)
    (p : Params) (args : list string) (envs : gmap string string)
    (out err : string) (f1 : FS) :
  validate request s = (Normal p, s) ->
  as_strs 0 (job_command w p) = inr args ->
  env_strs (build_env w (hf_token p)) = Some envs ->
  spawn w args envs 1800 (<[scoped_dir w := Dir]> (fs s))
    = inr (Exited 0 out err, f1) ->
  f1 !! output_dir w = None
  \/ (f1 !! output_dir w = Some Dir /\ entries (output_dir w) f1 = []) ->
  let s' := (generate_model w request s).2 in
  (generate_model w request s).1
    = Return (Json [("error", [Lit "No output generated from model conversion"])] 500)
  /\ (forall o er, err_no_output <> err_failed o er)
  /\ exists evs,
       trace s' = (trace s ++ evs)%list
       /\ forallb (fun ev => negb (packaging ev)) evs = true.
Proof.
  intros Hv Hargs Henv Hsp [Hout|[Hout Hent]]; simpl.
  - pose proof (job_output_missing _ _ _ _ Hargs _ Henv _ _ _ Hsp Hout) as Hj.
    rewrite (generate_model_job _ _ _ _ _ _ Hv Hj).
    simpl. split; [reflexivity|split; [discriminate|]]. by eexists.
  - pose proof (job_output_empty _ _ _ _ Hargs _ Henv _ _ _ Hsp Hout Hent) as Hj.
    rewrite (generate_model_job _ _ _ _ _ _ Hv Hj).
    simpl. split; [reflexivity|split; [discriminate|]]. by eexists.
Qed.

Lemma timeout_answers_408_witness :
  (generate_model (stub_world hanging_tool zip_archiver) gpt2_request
     (initial base_fs)).1 = Return err_timeout
  /\ status_code err_timeout = 408%Z.
Proof.
  destruct (timeout_answers_408 (stub_world hanging_tool zip_archiver)
              gpt2_request (initial base_fs) gpt2_params gpt2_args gpt2_env
              (<["/app/tmp/tmpk3x9_q2a/model_output" := Dir]>
                 (<[gpt2_dir := Dir]> base_fs)))
    as (Hrun & Hstatus & _).
  - reflexivity.
  - reflexivity.
  - vm_compute. reflexivity.
  - vm_compute. reflexivity.
  - rewrite Hrun. split; [reflexivity | exact Hstatus].
Defined.

Lemma nonzero_exit_answers_500_with_output_witness :
  (generate_model (stub_world failing_tool zip_archiver) gpt2_request
     (initial base_fs)).1
  = Return (Json [ ("error", [Lit "Model generation failed"]);
                   ("details", [Lit "Traceback: unsupported architecture"]);
                   ("stdout", [Lit "loading model"]) ] 500).
Proof.
  destruct (nonzero_exit_answers_500_with_output
              (stub_world failing_tool zip_archiver)
              gpt2_request (initial base_fs) gpt2_params gpt2_args gpt2_env
              1 "loading model" "Traceback: unsupported architecture"
              (<[gpt2_dir := Dir]> base_fs))
    as (Hrun & _).
  - reflexivity.
  - reflexivity.
  - vm_compute. reflexivity.
  - vm_compute. reflexivity.
  - lia.
  - exact Hrun.
Defined.

Lemma empty_output_answers_500_witness :
  (generate_model (stub_world silent_tool zip_archiver) gpt2_request
     (initial base_fs)).1
  = Return (Json [("error", [Lit "No output generated from model conversion"])] 500).
Proof.
  destruct (empty_output_answers_500
              (stub_world silent_tool zip_archiver)
              gpt2_request (initial base_fs) gpt2_params gpt2_args gpt2_env
              "" "" (<[gpt2_dir := Dir]> base_fs))
    as (Hrun & _).
  - reflexivity.
  - reflexivity.
  - vm_compute. reflexivity.
  - vm_compute. reflexivity.
  - left. vm_compute. reflexivity.
  - exact Hrun.
Defined.

(** ** What is run, and with what *)

Lemma runs_app (l1 l2 : list event) : runs (l1 ++ l2)%list = (runs l1 ++ runs l2)%list.
Proof. unfold runs. apply omap_app. Qed.

Lemma package_path_runs w name f1 r f2 evs :
  package_path w name f1 r f2 evs -> runs evs = [].
Proof. by intros []. Qed.

(** A job runs the child at most once: once its command is made of
    strings, with that command, the environment built for it and the
    1800-second deadline. *)
Lemma job_path_runs w p f o f' evs :
  job_path w p f o f' evs ->
  runs evs =
    match as_strs 0 (job_command w p) with
    | inr _ => [(job_command w p, build_env w (hf_token p), 1800%Z)]
    | inl _ => []
    end.
Proof.
  intros H. inversion H; subst;
    repeat match goal with
           | Heq : as_strs 0 (job_command w p) = _ |- _ => rewrite Heq; clear Heq
           end; try reflexivity.
  rewrite runs_app.
  match goal with
  | Hk : package_path _ _ _ _ _ _ |- _ => rewrite (package_path_runs _ _ _ _ _ _ Hk)
  end.
  reflexivity.
Qed.

Lemma generate_model_runs w request s :
  runs (trace (generate_model w request s).2) =
    (runs (trace s) ++
     match validate request s with
     | (Normal p, _) =>
         match as_strs 0 (job_command w p) with
         | inr _ => [(job_command w p, build_env w (hf_token p), 1800%Z)]
         | inl _ => []
         end
     | _ => []
     end)%list.
Proof.
  rewrite (validate_pure request s).
  destruct (validate request (mkState ∅ [])) as [[p|r|ex] s0] eqn:Hv0; simpl.
  - assert (Hv : validate request s = (Normal p, s)).
    { by rewrite validate_pure, Hv0. }
    destruct (job_path_total w p (fs s)) as (o & f' & evs & Hpath).
    rewrite (generate_model_job _ _ _ _ _ _ Hv (job_path_run _ _ _ _ _ _ Hpath)).
    simpl. rewrite runs_app. f_equal.
    change (EvMkdtemp (scoped_dir w) :: evs ++ [EvRmtree (scoped_dir w)])%list
      with ([EvMkdtemp (scoped_dir w)] ++ evs ++ [EvRmtree (scoped_dir w)])%list.
    rewrite !runs_app. simpl. rewrite app_nil_r.
    by apply job_path_runs in Hpath.
  - assert (Hv : validate request s = (Return r, s)).
    { by rewrite validate_pure, Hv0. }
    rewrite (generate_model_rejected _ _ _ _ Hv). simpl. by rewrite app_nil_r.
  - assert (Hv : validate request s = (Raise ex, s)).
    { by rewrite validate_pure, Hv0. }
    rewrite (generate_model_raised _ _ _ _ Hv). simpl. by rewrite app_nil_r.
Qed.

Lemma params_of_token (t : value) (d : list (string * value)) :
  params_of (("token", t) :: d) =
    mkParams (model_name (params_of d)) (precision (params_of d))
      (execution_provider (params_of d)) t.
Proof. reflexivity. Qed.

Section ChildEnvironment.
Variables (w : World) (t : value).

Lemma build_env_token_HF_TOKEN :
  truthy t = true -> build_env w t !! "HF_TOKEN" = Some t.
Proof.
  intros Ht. unfold build_env. rewrite Ht.
  rewrite lookup_insert_ne by done. apply lookup_insert_eq.
Qed.

Lemma build_env_token_HUGGING_FACE_HUB_TOKEN :
  truthy t = true -> build_env w t !! "HUGGING_FACE_HUB_TOKEN" = Some t.
Proof.
  intros Ht. unfold build_env. rewrite Ht. apply lookup_insert_eq.
Qed.

Lemma build_env_token_other k :
  truthy t = true -> k <> "HF_TOKEN" -> k <> "HUGGING_FACE_HUB_TOKEN" ->
  build_env w t !! k = VStr <$> environ w !! k.
Proof.
  intros Ht H1 H2. unfold build_env. rewrite Ht.
  rewrite !lookup_insert_ne by done. apply lookup_fmap.
Qed.

Lemma build_env_no_token :
  truthy t = false ->
  build_env w t !! "HF_HUB_DISABLE_TELEMETRY" = Some (VStr "1")
  /\ build_env w t !! "TRANSFORMERS_OFFLINE" = Some (VStr "0")
  /\ build_env w t !! "HF_HUB_OFFLINE" = Some (VStr "0").
Proof.
  intros Ht. unfold build_env. rewrite Ht.
  repeat split;
    repeat (rewrite lookup_insert_ne by done); apply lookup_insert_eq.
Qed.

Lemma build_env_no_token_other k :
  truthy t = false ->
  k <> "HF_HUB_DISABLE_TELEMETRY" -> k <> "TRANSFORMERS_OFFLINE" ->
  k <> "HF_HUB_OFFLINE" ->
  build_env w t !! k = VStr <$> environ w !! k.
Proof.
  intros Ht H1 H2 H3. unfold build_env. rewrite Ht.
  rewrite !lookup_insert_ne by done. apply lookup_fmap.
Qed.
End ChildEnvironment.

(** C7: the command of the child does not depend on the token: two
    requests that differ only in the token field run the same command
    lines, and the command of a job is made of the model, the precision,
    the execution provider and the output directory only.  A token that is
    present (non-empty) reaches the child as HF_TOKEN and
    HUGGING_FACE_HUB_TOKEN, the rest of the environment being the
    server's; without one, HF_HUB_DISABLE_TELEMETRY=1,
    TRANSFORMERS_OFFLINE=0 and HF_HUB_OFFLINE=0 are set instead, the rest
    again being the server's. *)
Theorem token_only_in_child_environment (w : World) (j : bool)
    (d : list (string * value)) (t t' : value) (s : State) :
  let request x := mkRequest j (Some (VDict (("token", x) :: d))) in
  let p := params_of d in
  let command :=
    build_command (model_name p) (precision p) (execution_provider p) (output_dir w) in
  map (fun r => r.1.1) (runs (trace (generate_model w (request t) s).2))
    = map (fun r => r.1.1) (runs (trace (generate_model w (request t') s).2))
  /\ runs (trace (generate_model w (request t) s).2)
     = (runs (trace s) ++
        if accepted (request t)
        then match as_strs 0 command with
             | inr _ => [(command, build_env w t, 1800%Z)]
             | inl _ => []
             end
        else [])%list
  /\ (truthy t = true ->
      build_env w t !! "HF_TOKEN" = Some t
      /\ build_env w t !! "HUGGING_FACE_HUB_TOKEN" = Some t
      /\ forall k, k <> "HF_TOKEN" -> k <> "HUGGING_FACE_HUB_TOKEN" ->
                   build_env w t !! k = VStr <$> environ w !! k)
  /\ (truthy t = false ->
      build_env w t !! "HF_HUB_DISABLE_TELEMETRY" = Some (VStr "1")
      /\ build_env w t !! "TRANSFORMERS_OFFLINE" = Some (VStr "0")
      /\ build_env w t !! "HF_HUB_OFFLINE" = Some (VStr "0")
      /\ forall k, k <> "HF_HUB_DISABLE_TELEMETRY" -> k <> "TRANSFORMERS_OFFLINE" ->
                   k <> "HF_HUB_OFFLINE" ->
                   build_env w t !! k = VStr <$> environ w !! k).
Proof.
  intros request p command.
  assert (Hruns : forall x,
    runs (trace (generate_model w (request x) s).2)
    = (runs (trace s) ++
       if accepted (request x)
       then match as_strs 0 command with
            | inr _ => [(command, build_env w x, 1800%Z)]
            | inl _ => []
            end
       else [])%list).
  { intros x. rewrite generate_model_runs. f_equal.
    unfold accepted, request. rewrite !validate_first_failing, params_of_token.
    fold p.
    destruct (first_failing j _); reflexivity. }
  assert (Hacc : forall x, accepted (request x) = accepted (request t)).
  { intros x. unfold accepted, request.
    rewrite !validate_first_failing, !params_of_token. fold p.
    unfold first_failing, check_order, find, holds. simpl.
    repeat match goal with
           | |- context [negb ?b] => destruct b; simpl
           end; reflexivity. }
  split; [|split; [apply Hruns|split]].
  - rewrite !Hruns, !map_app, (Hacc t').
    destruct (accepted (request t)); [|reflexivity].
    destruct (as_strs 0 command); reflexivity.
  - intros Ht. split; [by apply build_env_token_HF_TOKEN|].
    split; [by apply build_env_token_HUGGING_FACE_HUB_TOKEN|].
    intros k H1 H2. by apply build_env_token_other.
  - intros Ht. destruct (build_env_no_token w t Ht) as (H1 & H2 & H3).
    repeat (split; [done|]). intros k K1 K2 K3. by apply build_env_no_token_other.
Qed.

(** ** The scoped temporary directory *)

Lemma startswith_append (p q s : string) : startswith (p ++ q) (p ++ q ++ s) = startswith q (q ++ s).
Proof.
  induction p as [|a p IH]; simpl; [done|]. by rewrite Ascii.eqb_refl, IH.
Qed.

Lemma startswith_self_append (q s : string) : startswith q (q ++ s) = true.
Proof.
  induction q as [|a q IH]; simpl; [done|]. by rewrite Ascii.eqb_refl, IH.
Qed.

Lemma append_cons (x : ascii) (a b : string) : String x a ++ b = String x (a ++ b).
Proof. reflexivity. Qed.

Lemma string_append_assoc (a b c : string) : (a ++ b) ++ c = a ++ b ++ c.
Proof. induction a as [|x a IH]; [done|]. by rewrite !append_cons, IH. Qed.

Lemma under_self (d : string) : under d d = true.
Proof. unfold under. by rewrite String.eqb_refl. Qed.

Lemma under_below (d x : string) : under d (d ++ "/" ++ x) = true.
Proof.
  unfold under. rewrite startswith_append, startswith_self_append.
  apply orb_true_r.
Qed.

Lemma ends_with_sep_no_sep (a : ascii) (t : string) :
  Ascii.eqb a "/" = false -> has_sep t = false -> ends_with_sep (String a t) = false.
Proof.
  revert a. induction t as [|b t IH]; intros a Ha Ht; simpl in *; [done|].
  apply orb_false_iff in Ht as [Hb Ht]. by apply IH.
Qed.

Lemma ends_with_sep_append (s : string) (a : ascii) (t : string) :
  ends_with_sep (s ++ String a t) = ends_with_sep (String a t).
Proof.
  induction s as [|x s IH]; [done|].
  rewrite append_cons, <- IH. by destruct s.
Qed.

Lemma os_path_join_relative (a b : string) :
  a <> "" -> ends_with_sep a = false -> startswith "/" b = false ->
  os_path_join a b = a ++ "/" ++ b.
Proof.
  intros Ha Hsep Hb. unfold os_path_join. rewrite Hb, Hsep. by destruct a.
Qed.

Lemma startswith_sep_cons (c : ascii) (s : string) :
  startswith "/" (String c s) = Ascii.eqb "/" c.
Proof. unfold startswith. apply andb_true_r. Qed.

Lemma archive_name_relative (m pr e : string) :
  startswith "/" (archive_name m pr e) = false.
Proof.
  unfold archive_name. destruct m as [|a m]; [done|].
  simpl replace. rewrite append_cons, startswith_sep_cons.
  destruct (Ascii.eqb a "/") eqn:Ha; [done|].
  by rewrite Ascii.eqb_sym, Ha.
Qed.

Section ScopedPaths.
Variable w : World.
Hypothesis Hname : has_sep (tempname w) = false.

Lemma scoped_dir_join (b : string) :
  startswith "/" b = false ->
  os_path_join (scoped_dir w) b = scoped_dir w ++ "/" ++ b.
Proof.
  intros Hb. apply os_path_join_relative; [done| |done].
  change (scoped_dir w) with ("/app/tmp/tm" ++ String "p" (tempname w)).
  rewrite ends_with_sep_append. by apply ends_with_sep_no_sep.
Qed.

Lemma output_dir_under : under (scoped_dir w) (output_dir w) = true.
Proof. unfold output_dir. rewrite scoped_dir_join by done. apply under_below. Qed.

Lemma archive_file_under (m pr e : string) :
  under (scoped_dir w) (archive_file w (archive_name m pr e)) = true.
Proof.
  unfold archive_file. rewrite scoped_dir_join by apply archive_name_relative.
  rewrite !string_append_assoc. apply under_below.
Qed.
End ScopedPaths.

Lemma remove_tree_under (d q : string) (f : FS) :
  under d q = true -> remove_tree d f !! q = None.
Proof.
  intros Hq. unfold remove_tree. apply map_lookup_filter_None. right.
  intros x _ H. simpl in H. congruence.
Qed.

Lemma remove_tree_outside (d q : string) (f : FS) :
  under d q = false -> remove_tree d f !! q = f !! q.
Proof.
  intros Hq. unfold remove_tree.
  destruct (f !! q) as [x|] eqn:Hf.
  - by apply map_lookup_filter_Some.
  - apply map_lookup_filter_None. by left.
Qed.

(** However a job is left, its last act is to remove its directory. *)
Lemma run_job_cleanup w p s :
  exists f evs,
    fs (run_job w p s).2 = remove_tree (scoped_dir w) f
    /\ trace (run_job w p s).2
       = (trace s ++ EvMkdtemp (scoped_dir w) :: evs ++ [EvRmtree (scoped_dir w)])%list.
Proof.
  destruct (job_path_total w p (fs s)) as (o & f & evs & Hpath).
  exists f, evs. by rewrite (job_path_run _ _ _ _ _ _ Hpath).
Qed.

(** The five ways out of a job (archive sent, deadline passed, non-zero
    exit, no output, archive failure), each on a stub tool: the file
    system is afterwards what it was before the request. *)
Example every_exit_leaves_the_file_system_as_found :
  fs (generate_model (stub_world two_files_tool zip_archiver) gpt2_request
        (initial base_fs)).2 = base_fs
  /\ fs (generate_model (stub_world hanging_tool zip_archiver) gpt2_request
           (initial base_fs)).2 = base_fs
  /\ fs (generate_model (stub_world failing_tool zip_archiver) gpt2_request
           (initial base_fs)).2 = base_fs
  /\ fs (generate_model (stub_world silent_tool zip_archiver) gpt2_request
           (initial base_fs)).2 = base_fs
  /\ generate_model (stub_world two_files_tool broken_archiver) gpt2_request
       (initial base_fs)
     = (Return (err_archive (Exception "OSError" "[Errno 28] No space left on device")),
        mkState base_fs
          [ EvMkdtemp gpt2_dir;
            EvRun (job_command (stub_world two_files_tool broken_archiver) gpt2_params)
              (build_env (stub_world two_files_tool broken_archiver) VNone) 1800;
            EvExists "/app/tmp/tmpk3x9_q2a/model_output";
            EvListdir "/app/tmp/tmpk3x9_q2a/model_output";
            EvMakeArchive "/app/tmp/tmpk3x9_q2a/gpt2_fp32_cpu" "zip"
              "/app/tmp/tmpk3x9_q2a/model_output";
            EvRmtree gpt2_dir ]).
Proof. repeat split; vm_compute; reflexivity. Qed.

(** C8: for every request that reaches the job stage, when the view
    returns nothing is left at or below the request's temporary directory
    (in particular neither the output directory nor the archive file),
    whichever way the job went; the directory was created by this request
    and removing it is the last thing the view does. *)
Theorem scoped_directory_always_removed (w : World) (request : Request)
    (s : State) (p : Params) :
  validate request s = (Normal p, s) ->
  has_sep (tempname w) = false ->
  let s' := (generate_model w request s).2 in
  (forall q, under (scoped_dir w) q = true -> fs s' !! q = None)
  /\ fs s' !! scoped_dir w = None
  /\ fs s' !! output_dir w = None
  /\ (forall m pr e, fs s' !! archive_file w (archive_name m pr e) = None)
  /\ exists evs,
       trace s' = (trace s ++ EvMkdtemp (scoped_dir w) :: evs
                   ++ [EvRmtree (scoped_dir w)])%list.
Proof.
  intros Hv Hname s'.
  destruct (run_job w p s) as [o sj] eqn:Hj.
  destruct (run_job_cleanup w p s) as (f & evs & Hfs & Htr).
  rewrite Hj in Hfs, Htr. simpl in Hfs, Htr.
  assert (Hs' : s' = sj).
  { unfold s'. by rewrite (generate_model_job _ _ _ _ _ _ Hv Hj). }
  rewrite Hs', Hfs.
  assert (Hgone : forall q, under (scoped_dir w) q = true ->
                            remove_tree (scoped_dir w) f !! q = None).
  { intros q Hq. by apply remove_tree_under. }
  split; [exact Hgone|]. split; [apply Hgone, under_self|].
  split; [by apply Hgone, output_dir_under|].
  split; [intros m pr e; by apply Hgone, archive_file_under|].
  by exists evs.
Qed.

Lemma scoped_directory_always_removed_witness :
  let s' := (generate_model (stub_world two_files_tool zip_archiver) gpt2_request
               (initial base_fs)).2 in
  fs s' !! gpt2_dir = None
  /\ fs s' !! "/app/tmp/tmpk3x9_q2a/model_output" = None
  /\ fs s' !! "/app/tmp/tmpk3x9_q2a/model_output/model.onnx" = None
  /\ fs s' !! "/app/tmp/tmpk3x9_q2a/gpt2_fp32_cpu.zip" = None.
Proof.
  destruct (scoped_directory_always_removed
              (stub_world two_files_tool zip_archiver) gpt2_request
              (initial base_fs) gpt2_params)
    as (Hall & Hdir & Hout & Hzip & _).
  - reflexivity.
  - reflexivity.
  - split; [exact Hdir|]. split; [exact Hout|]. split.
    + apply Hall. reflexivity.
    + exact (Hzip "gpt2" "fp32" "cpu").
Defined.

Lemma token_only_in_child_environment_witness :
  let w := stub_world two_files_tool zip_archiver in
  build_env w (VStr "hf_secret") !! "HF_TOKEN" = Some (VStr "hf_secret")
  /\ build_env w (VStr "hf_secret") !! "HUGGING_FACE_HUB_TOKEN" = Some (VStr "hf_secret")
  /\ build_env w (VStr "hf_secret") !! "PATH" = Some (VStr "/usr/local/bin:/usr/bin")
  /\ build_env w VNone !! "HF_HUB_DISABLE_TELEMETRY" = Some (VStr "1")
  /\ build_env w VNone !! "HF_TOKEN" = None.
Proof.
  intros w.
  destruct (token_only_in_child_environment w true
              [ ("model", VStr "gpt2") ] (VStr "hf_secret") VNone (initial base_fs))
    as (_ & _ & Htoken & _).
  destruct (token_only_in_child_environment w true
              [ ("model", VStr "gpt2") ] VNone (VStr "hf_secret") (initial base_fs))
    as (_ & _ & _ & Habsent).
  destruct Htoken as (H1 & H2 & H3); [reflexivity|].
  destruct Habsent as (H4 & _ & _ & H5); [reflexivity|].
  split; [exact H1|]. split; [exact H2|].
  split; [rewrite H3 by done; reflexivity|].
  split; [exact H4|].
  rewrite H5 by done. reflexivity.
Defined.

(** ** The archive *)

Lemma replace_no_sep (m : string) : has_sep (replace "/" "_" m) = false.
Proof.
  induction m as [|a m IH]; [done|]. simpl.
  rewrite IH, orb_false_r. by destruct (Ascii.eqb a "/") eqn:Ha.
Qed.

(** C9: a valid request whose child exits 0 leaving a non-empty output
    directory, and whose archive is created, is answered 200 with the
    archive file as an attachment named after the model (every "/"
    replaced by "_"), the precision and the execution provider, joined by
    "_", with the extension .zip; no other run is answered 200.  For gpt2
    / fp32 / cpu the name is gpt2_fp32_cpu.zip. *)
Theorem success_sends_named_archive (w : World) (request : Request) (s : State)
    (p : Params) :
  validate request s = (Normal p, s) ->
  (forall args envs o er f1 m pr e f2 c,
      as_strs 0 (job_command w p) = inr args ->
      env_strs (build_env w (hf_token p)) = Some envs ->
      spawn w args envs 1800 (<[scoped_dir w := Dir]> (fs s))
        = inr (Exited 0 o er, f1) ->
      f1 !! output_dir w = Some Dir ->
      entries (output_dir w) f1 <> [] ->
      model_name p = VStr m ->
      precision p = VStr pr ->
      execution_provider p = VStr e ->
      make_archive w (os_path_join (scoped_dir w) (archive_name m pr e)) "zip"
        (output_dir w) f1 = (None, f2) ->
      f2 !! archive_file w (archive_name m pr e) = Some (File c) ->
      (generate_model w request s).1
        = Return (SendFile (archive_file w (archive_name m pr e)) c true
                    (replace "/" "_" m ++ "_" ++ pr ++ "_" ++ e ++ ".zip")
                    "application/zip")
      /\ status_code (SendFile (archive_file w (archive_name m pr e)) c true
                        (replace "/" "_" m ++ "_" ++ pr ++ "_" ++ e ++ ".zip")
                        "application/zip") = 200%Z
      /\ has_sep (replace "/" "_" m) = false)
  /\ (forall r,
        (generate_model w request s).1 = Return r ->
        status_code r = 200%Z ->
        exists m pr e c,
          model_name p = VStr m /\ precision p = VStr pr
          /\ execution_provider p = VStr e
          /\ r = SendFile (archive_file w (archive_name m pr e)) c true
                   (replace "/" "_" m ++ "_" ++ pr ++ "_" ++ e ++ ".zip")
                   "application/zip")
  /\ replace "/" "_" "gpt2" ++ "_" ++ "fp32" ++ "_" ++ "cpu" ++ ".zip"
     = "gpt2_fp32_cpu.zip".
Proof.
  intros Hv.
  assert (Hname : forall m pr e,
             archive_name m pr e ++ ".zip"
             = replace "/" "_" m ++ "_" ++ pr ++ "_" ++ e ++ ".zip").
  { intros m pr e. unfold archive_name. by rewrite !string_append_assoc. }
  split; [|split; [|reflexivity]].
  - intros args envs o er f1 m pr e f2 c
      Hargs Henv Hsp Hout Hent Hm Hp He Hmk Hzip.
    assert (Hpath : job_path w p (fs s)
              (Return (SendFile (archive_file w (archive_name m pr e)) c true
                         (archive_name m pr e ++ ".zip") "application/zip"))
              f2
              ([ EvRun (job_command w p) (build_env w (hf_token p)) 1800;
                 EvExists (output_dir w); EvListdir (output_dir w) ]
               ++ [ EvMakeArchive (os_path_join (scoped_dir w) (archive_name m pr e))
                      "zip" (output_dir w);
                    EvExists (archive_file w (archive_name m pr e));
                    EvSendFile (archive_file w (archive_name m pr e)) ])%list).
    { eapply path_packaged; eauto. by apply path_sent. }
    rewrite (generate_model_job _ _ _ _ _ _ Hv (job_path_run _ _ _ _ _ _ Hpath)).
    simpl. rewrite Hname. split; [reflexivity|]. split; [reflexivity|].
    apply replace_no_sep.
  - intros r Hr Hst.
    destruct (job_path_total w p (fs s)) as (o & f' & evs & Hpath).
    rewrite (generate_model_job _ _ _ _ _ _ Hv (job_path_run _ _ _ _ _ _ Hpath)) in Hr.
    simpl in Hr.
    inversion Hpath; subst;
      try match goal with ex : Exn |- _ => destruct ex end;
      simpl in Hr; injection Hr as <-; try discriminate Hst.
    match goal with
    | Hk : package_path _ _ _ _ _ _ |- _ =>
        inversion Hk; subst; try discriminate Hst
    end.
    do 4 eexists. split; [eassumption|]. split; [eassumption|].
    split; [eassumption|]. by rewrite Hname.
Qed.

Lemma success_sends_named_archive_witness :
  (generate_model (stub_world two_files_tool zip_archiver) gpt2_request
     (initial base_fs)).1
  = Return (SendFile "/app/tmp/tmpk3x9_q2a/gpt2_fp32_cpu.zip"
              "archive of /app/tmp/tmpk3x9_q2a/model_output" true
              "gpt2_fp32_cpu.zip" "application/zip").
Proof.
  destruct (success_sends_named_archive
              (stub_world two_files_tool zip_archiver) gpt2_request
              (initial base_fs) gpt2_params)
    as (Hsuccess & _).
  - reflexivity.
  - destruct (Hsuccess gpt2_args gpt2_env "done" ""
                (<["/app/tmp/tmpk3x9_q2a/model_output/genai_config.json" := File "{}"]>
                   (<["/app/tmp/tmpk3x9_q2a/model_output/model.onnx" := File "onnx"]>
                      (<["/app/tmp/tmpk3x9_q2a/model_output" := Dir]>
                         (<[gpt2_dir := Dir]> base_fs))))
                "gpt2" "fp32" "cpu"
                (<["/app/tmp/tmpk3x9_q2a/gpt2_fp32_cpu.zip"
                     := File "archive of /app/tmp/tmpk3x9_q2a/model_output"]>
                   (<["/app/tmp/tmpk3x9_q2a/model_output/genai_config.json" := File "{}"]>
                      (<["/app/tmp/tmpk3x9_q2a/model_output/model.onnx" := File "onnx"]>
                         (<["/app/tmp/tmpk3x9_q2a/model_output" := Dir]>
                            (<[gpt2_dir := Dir]> base_fs)))))
                "archive of /app/tmp/tmpk3x9_q2a/model_output")
      as (Hrun & _).
    + reflexivity.
    + vm_compute. reflexivity.
    + vm_compute. reflexivity.
    + vm_compute. reflexivity.
    + vm_compute. discriminate.
    + reflexivity.
    + reflexivity.
    + reflexivity.
    + vm_compute. reflexivity.
    + vm_compute. reflexivity.
    + exact Hrun.
Defined.

(** * Further properties of the view *)

(** ** What the view answers at all *)

(** Validation ends in one of three ways; a refusal is a 400. *)
Lemma validate_outcome request s :
  (exists p, validate request s = (Normal p, s))
  \/ (exists r, validate request s = (Return r, s) /\ status_code r = 400%Z)
  \/ (exists ex, validate request s = (Raise ex, s)).
Proof.
  destruct request as [[|] [v|]].
  - destruct v; try (right; right; eexists; reflexivity).
    rewrite validate_first_failing.
    destruct (first_failing true (params_of d)) as [c|].
    + right; left. eexists. split; [reflexivity|]. by destruct c.
    + left. by eexists.
  - right; right. eexists. reflexivity.
  - right; left. eexists. split; reflexivity.
  - right; left. eexists. split; reflexivity.
Qed.

Lemma package_path_status w name f1 r f2 evs :
  package_path w name f1 r f2 evs ->
  status_code r = 200%Z \/ status_code r = 500%Z.
Proof. intros []; simpl; auto. Qed.

(** X1: whatever the request and whatever the tool and the archiver do,
    the view returns a response (no exception escapes it and it never
    ends without one), and the status of that response is 200, 400, 408
    or 500. *)
Theorem view_always_answers (w : World) (request : Request) (s : State) :
  exists r,
    (generate_model w request s).1 = Return r
    /\ In (status_code r) [200; 400; 408; 500]%Z.
Proof.
  destruct (validate_outcome request s) as [[p Hv]|[(r & Hv & Hst)|[ex Hv]]].
  - destruct (job_path_total w p (fs s)) as (o & f' & evs & Hpath).
    rewrite (generate_model_job _ _ _ _ _ _ Hv (job_path_run _ _ _ _ _ _ Hpath)).
    simpl.
    inversion Hpath; subst;
      try match goal with ex : Exn |- _ => destruct ex end;
      try (eexists; split; [reflexivity|]; simpl; tauto).
    match goal with
    | Hk : package_path _ _ _ _ _ _ |- _ =>
        destruct (package_path_status _ _ _ _ _ _ Hk) as [Hst|Hst]
    end; (eexists; split; [reflexivity|]; rewrite Hst; simpl; tauto).
  - rewrite (generate_model_rejected _ _ _ _ Hv). exists r.
    split; [reflexivity|]. rewrite Hst. simpl. tauto.
  - rewrite (generate_model_raised _ _ _ _ Hv). eexists.
    split; [reflexivity|]. simpl. tauto.
Qed.

(** X2: a request that does not pass validation has no effect at all: no
    directory is created, no process is run, the file system and the
    trace are as before; and it is answered 400 or 500. *)
Theorem rejected_request_has_no_effect (w : World) (request : Request) (s : State) :
  accepted request = false ->
  (generate_model w request s).2 = s
  /\ exists r,
       (generate_model w request s).1 = Return r
       /\ (status_code r = 400%Z \/ status_code r = 500%Z).
Proof.
  intros Hacc.
  destruct (validate_outcome request s) as [[p Hv]|[(r & Hv & Hst)|[ex Hv]]].
  - unfold accepted in Hacc. rewrite validate_pure in Hv.
    destruct (validate request (mkState ∅ [])) as [[?| |] ?]; simpl in *;
      discriminate.
  - rewrite (generate_model_rejected _ _ _ _ Hv). split; [reflexivity|].
    exists r. auto.
  - rewrite (generate_model_raised _ _ _ _ Hv). split; [reflexivity|].
    eexists. split; [reflexivity|]. by right.
Qed.

Lemma rejected_request_has_no_effect_witness :
  let request := mkRequest true (Some (VDict [("model", VStr "gpt2");
                                              ("precision", VStr "FP32")])) in
  let w := stub_world two_files_tool zip_archiver in
  (generate_model w request (initial base_fs)).2 = initial base_fs
  /\ exists r,
       (generate_model w request (initial base_fs)).1 = Return r
       /\ (status_code r = 400%Z \/ status_code r = 500%Z).
Proof.
  apply (rejected_request_has_no_effect
           (stub_world two_files_tool zip_archiver)
           (mkRequest true (Some (VDict [("model", VStr "gpt2");
                                         ("precision", VStr "FP32")])))
           (initial base_fs)).
  reflexivity.
Defined.

(** X3: a body that is JSON but not an object (an array, a string, a
    number, a boolean, null) is not answered 400: reading the first
    parameter raises AttributeError, and the answer is the 500
    internal-error response naming the type of the body.  A body that is
    not JSON at all is answered 500 as well. *)
Theorem non_object_body_is_internal_error (w : World) (v : value) (s : State) :
  (forall d, v <> VDict d) ->
  generate_model w (mkRequest true (Some v)) s
    = (Return (err_internal
                 (Exception "AttributeError"
                    ("'" ++ type_name v ++ "' object has no attribute 'get'"))), s)
  /\ exists msg,
       generate_model w (mkRequest true None) s
       = (Return (err_internal (Exception "BadRequest" msg)), s).
Proof.
  intros Hv. split; [|eexists; by apply generate_model_raised].
  apply generate_model_raised.
  destruct v; try reflexivity. by destruct (Hv d).
Qed.

Lemma non_object_body_is_internal_error_witness :
  generate_model (stub_world two_files_tool zip_archiver)
    (mkRequest true (Some (VList [VStr "gpt2"]))) (initial base_fs)
  = (Return (err_internal
               (Exception "AttributeError" "'list' object has no attribute 'get'")),
     initial base_fs).
Proof.
  destruct (non_object_body_is_internal_error
              (stub_world two_files_tool zip_archiver)
              (VList [VStr "gpt2"]) (initial base_fs)) as [H _].
  - intros d. discriminate.
  - exact H.
Defined.

(** X4: the view looks at four members of the body only: two bodies
    with the same model, precision, execution_provider and token
    (members missing in both counting as the same) are answered alike and
    have the same effects, whatever other members they hold and in
    whatever order. *)
Theorem other_members_are_ignored (w : World) (j : bool)
    (d d' : list (string * value)) (s : State) :
  params_of d = params_of d' ->
  generate_model w (mkRequest j (Some (VDict d))) s
    = generate_model w (mkRequest j (Some (VDict d'))) s.
Proof.
  intros Hp. unfold generate_model, try_except. munfold.
  by rewrite !validate_first_failing, Hp.
Qed.

Lemma other_members_are_ignored_witness :
  generate_model (stub_world two_files_tool zip_archiver)
    (mkRequest true (Some (VDict [ ("model", VStr "gpt2"); ("precision", VStr "int4") ])))
    (initial base_fs)
  = generate_model (stub_world two_files_tool zip_archiver)
      (mkRequest true (Some (VDict [ ("quantize", VBool true);
                                     ("precision", VStr "int4");
                                     ("model", VStr "gpt2");
                                     ("precision", VStr "fp16") ])))
      (initial base_fs).
Proof.
  apply (other_members_are_ignored
           (stub_world two_files_tool zip_archiver) true
           [ ("model", VStr "gpt2"); ("precision", VStr "int4") ]
           [ ("quantize", VBool true); ("precision", VStr "int4");
             ("model", VStr "gpt2"); ("precision", VStr "fp16") ]
           (initial base_fs)).
  reflexivity.
Defined.

(** ** Parameters: defaults and types *)

Lemma dict_get_absent (d : list (string * value)) (key : string) (v : value) :
  has_key d key = false -> dict_get d key v = v.
Proof.
  induction d as [|[k x] d IH]; [done|]. unfold has_key, dict_get. simpl.
  intros H. apply orb_false_iff in H as [Hk Hd]. rewrite Hk. by apply IH.
Qed.

Lemma py_in_non_str (v : value) (l : list string) :
  (forall x, v <> VStr x) -> py_in v l = false.
Proof.
  intros Hv. unfold py_in. destruct v; try by induction l.
  by destruct (Hv s).
Qed.

(** X5: a request that gives a non-empty model and neither a precision
    nor an execution provider passes validation, and its tool is run once,
    with [--precision fp32] and [--execution_provider cpu]. *)
Theorem missing_parameters_default_to_fp32_cpu (w : World)
    (d : list (string * value)) (a : ascii) (m : string) (s : State) :
  dict_get d "model" VNone = VStr (String a m) ->
  has_key d "precision" = false ->
  has_key d "execution_provider" = false ->
  accepted (mkRequest true (Some (VDict d))) = true
  /\ runs (trace (generate_model w (mkRequest true (Some (VDict d))) s).2)
     = (runs (trace s)
        ++ [( [ VStr "python"; VStr "-m"; VStr "onnxruntime_genai.models.builder";
                VStr "--model"; VStr (String a m);
                VStr "--precision"; VStr "fp32";
                VStr "--execution_provider"; VStr "cpu";
                VStr "--output"; VStr (output_dir w) ],
              build_env w (dict_get d "token" VNone), 1800%Z )])%list.
Proof.
  intros Hm Hp He.
  assert (Hparams : params_of d
                    = mkParams (VStr (String a m)) (VStr "fp32") (VStr "cpu")
                        (dict_get d "token" VNone)).
  { unfold params_of.
    by rewrite Hm, (dict_get_absent _ _ _ Hp), (dict_get_absent _ _ _ He). }
  assert (Hv : forall s0, validate (mkRequest true (Some (VDict d))) s0
                          = (Normal (params_of d), s0)).
  { intros s0.
    apply validate_ok;
      rewrite ?Hm, ?(dict_get_absent _ _ _ Hp), ?(dict_get_absent _ _ _ He); done. }
  split.
  - unfold accepted. by rewrite Hv.
  - rewrite generate_model_runs, Hv, Hparams. reflexivity.
Qed.

Lemma missing_parameters_default_to_fp32_cpu_witness :
  let w := stub_world two_files_tool zip_archiver in
  let d := [ ("token", VStr "hf_secret"); ("model", VStr "microsoft/phi-2") ] in
  accepted (mkRequest true (Some (VDict d))) = true
  /\ runs (trace (generate_model w (mkRequest true (Some (VDict d)))
                    (initial base_fs)).2)
     = (runs (trace (initial base_fs))
        ++ [( [ VStr "python"; VStr "-m"; VStr "onnxruntime_genai.models.builder";
                VStr "--model"; VStr "microsoft/phi-2";
                VStr "--precision"; VStr "fp32";
                VStr "--execution_provider"; VStr "cpu";
                VStr "--output"; VStr (output_dir w) ],
              build_env w (dict_get d "token" VNone), 1800%Z )])%list.
Proof.
  apply (missing_parameters_default_to_fp32_cpu
           (stub_world two_files_tool zip_archiver)
           [ ("token", VStr "hf_secret"); ("model", VStr "microsoft/phi-2") ]
           "m" "icrosoft/phi-2" (initial base_fs)).
  - reflexivity.
  - reflexivity.
  - reflexivity.
Defined.

(** X6: the defaults stand in for a missing member only.  A precision
    that is present and not a string (null, a number, a list ...) is
    answered 400 as an unsupported precision; with a supported precision,
    an execution provider that is present and not a string is answered
    400 as an unsupported execution provider. *)
Theorem non_string_parameter_is_unsupported (w : World)
    (d : list (string * value)) (s : State) :
  truthy (dict_get d "model" VNone) = true ->
  ((forall x, dict_get d "precision" (VStr "fp32") <> VStr x) ->
   generate_model w (mkRequest true (Some (VDict d))) s
     = (Return (err_precision (dict_get d "precision" (VStr "fp32"))), s))
  /\ (py_in (dict_get d "precision" (VStr "fp32")) SUPPORTED_PRECISIONS = true ->
      (forall x, dict_get d "execution_provider" (VStr "cpu") <> VStr x) ->
      generate_model w (mkRequest true (Some (VDict d))) s
        = (Return (err_provider (dict_get d "execution_provider" (VStr "cpu"))), s)).
Proof.
  intros Hm. split.
  - intros Hp. apply generate_model_rejected.
    apply validate_bad_precision; [done|]. by apply py_in_non_str.
  - intros Hp He. apply generate_model_rejected.
    apply validate_bad_provider; [done|done|]. by apply py_in_non_str.
Qed.

Lemma non_string_parameter_is_unsupported_witness :
  let w := stub_world two_files_tool zip_archiver in
  generate_model w
    (mkRequest true (Some (VDict [ ("model", VStr "gpt2"); ("precision", VNone) ])))
    (initial base_fs)
  = (Return (err_precision VNone), initial base_fs)
  /\ generate_model w
       (mkRequest true (Some (VDict [ ("model", VStr "gpt2");
                                      ("execution_provider", VList [VStr "cpu"]) ])))
       (initial base_fs)
     = (Return (err_provider (VList [VStr "cpu"])), initial base_fs).
Proof.
  intros w. split.
  - destruct (non_string_parameter_is_unsupported w
                [ ("model", VStr "gpt2"); ("precision", VNone) ] (initial base_fs))
      as [H _]; [reflexivity|].
    apply H. intros x. discriminate.
  - destruct (non_string_parameter_is_unsupported w
                [ ("model", VStr "gpt2"); ("execution_provider", VList [VStr "cpu"]) ]
                (initial base_fs))
      as [_ H]; [reflexivity|].
    apply H; [reflexivity|]. intros x. discriminate.
Defined.

Lemma as_strs_bad_model (m pr e : value) (out : string) :
  (forall x, m <> VStr x) ->
  as_strs 0 (build_command m pr e out)
  = inl (Exception "TypeError"
           ("sequence item 4: expected str instance, " ++ type_name m ++ " found")).
Proof.
  intros Hm. destruct m; try reflexivity. by destruct (Hm s).
Qed.

(** X7: a model that is not a string but is not empty either (a number,
    true, a non-empty list or object) passes validation; the job then
    fails while its command line is joined, before anything is run: the
    answer is the 500 internal-error response with the TypeError, the
    temporary directory was created and removed, and no process was
    started. *)
Theorem non_string_model_fails_before_the_run (w : World) (request : Request)
    (s : State) (p : Params) :
  validate request s = (Normal p, s) ->
  (forall x, model_name p <> VStr x) ->
  generate_model w request s
  = (Return (err_internal
               (Exception "TypeError"
                  ("sequence item 4: expected str instance, "
                   ++ type_name (model_name p) ++ " found"))),
     mkState (remove_tree (scoped_dir w) (<[scoped_dir w := Dir]> (fs s)))
       (trace s ++ [EvMkdtemp (scoped_dir w); EvRmtree (scoped_dir w)])%list)
  /\ runs (trace (generate_model w request s).2) = runs (trace s).
Proof.
  intros Hv Hm.
  pose proof (as_strs_bad_model _ (precision p) (execution_provider p)
                (output_dir w) Hm) as Hargs.
  pose proof (job_bad_command w p s _ Hargs) as Hj.
  rewrite (generate_model_job _ _ _ _ _ _ Hv Hj). split; [reflexivity|].
  simpl. rewrite runs_app. simpl. by rewrite app_nil_r.
Qed.

Lemma non_string_model_fails_before_the_run_witness :
  (generate_model (stub_world two_files_tool zip_archiver)
     (mkRequest true (Some (VDict [("model", VInt 7)]))) (initial base_fs)).1
  = Return (err_internal
              (Exception "TypeError"
                 "sequence item 4: expected str instance, int found")).
Proof.
  destruct (non_string_model_fails_before_the_run
              (stub_world two_files_tool zip_archiver)
              (mkRequest true (Some (VDict [("model", VInt 7)])))
              (initial base_fs)
              (mkParams (VInt 7) (VStr "fp32") (VStr "cpu") VNone)) as [H _].
  - reflexivity.
  - intros x. discriminate.
  - rewrite H. reflexivity.
Defined.

(** ** The environment of the child, as strings *)

Lemma env_strs_fmap (E : gmap string string) : env_strs (VStr <$> E) = Some E.
Proof.
  unfold env_strs. rewrite decide_True.
  - f_equal. apply map_eq. intros i. rewrite lookup_omap, lookup_fmap.
    by destruct (E !! i).
  - apply map_Forall_fmap. intros i x _. by eexists.
Qed.

Lemma env_strs_insert (m : gmap string value) (E : gmap string string)
    (k x : string) :
  env_strs m = Some E -> env_strs (<[k := VStr x]> m) = Some (<[k := x]> E).
Proof.
  unfold env_strs. destruct (decide _) as [Hall|]; [|done]. intros [= <-].
  rewrite decide_True.
  - f_equal. by apply omap_insert_Some.
  - apply map_Forall_insert_2; [by eexists|done].
Qed.

Lemma env_strs_bad_token (w : World) (t : value) :
  truthy t = true -> (forall x, t <> VStr x) -> env_strs (build_env w t) = None.
Proof.
  intros Ht Hns. unfold env_strs. destruct (decide _) as [Hall|]; [|done].
  pose proof (Hall "HF_TOKEN" t (build_env_token_HF_TOKEN w t Ht)) as [x Hx].
  destruct t; try discriminate. by destruct (Hns s).
Qed.

(** X8: with a non-empty string as token, the child is handed the
    server's environment with HF_TOKEN and HUGGING_FACE_HUB_TOKEN set to
    it (overriding the server's own, if any); with no token, or an empty
    or null one, the server's environment with
    HF_HUB_DISABLE_TELEMETRY=1, TRANSFORMERS_OFFLINE=0 and
    HF_HUB_OFFLINE=0 set.  Nothing else is added or removed. *)
Theorem child_environment_is_server_environment_plus (w : World) :
  (forall a t,
      env_strs (build_env w (VStr (String a t)))
      = Some (<["HUGGING_FACE_HUB_TOKEN" := String a t]>
                (<["HF_TOKEN" := String a t]> (environ w))))
  /\ (forall t,
        truthy t = false ->
        env_strs (build_env w t)
        = Some (<["HF_HUB_OFFLINE" := "0"]>
                  (<["TRANSFORMERS_OFFLINE" := "0"]>
                     (<["HF_HUB_DISABLE_TELEMETRY" := "1"]> (environ w))))).
Proof.
  split.
  - intros a t. unfold build_env. simpl.
    by do 2 apply env_strs_insert; apply env_strs_fmap.
  - intros t Ht. unfold build_env. rewrite Ht.
    by do 3 apply env_strs_insert; apply env_strs_fmap.
Qed.

Lemma child_environment_is_server_environment_plus_witness :
  env_strs (build_env (stub_world two_files_tool zip_archiver) (VStr "")) = Some gpt2_env.
Proof.
  destruct (child_environment_is_server_environment_plus
              (stub_world two_files_tool zip_archiver)) as [_ H].
  rewrite (H (VStr "")); reflexivity.
Defined.

(** X9: a token that is neither empty nor a string (a number, true, a
    list ...) passes validation, but the child is not started: the call
    that would run it raises TypeError on the environment, and the answer
    is the 500 internal-error response; the output check and packaging
    are not reached. *)
Theorem non_string_token_is_internal_error (w : World) (request : Request)
    (s : State) (p : Params) (args : list string) :
  validate request s = (Normal p, s) ->
  as_strs 0 (job_command w p) = inr args ->
  truthy (hf_token p) = true ->
  (forall x, hf_token p <> VStr x) ->
  exists msg,
    generate_model w request s
    = (Return (err_internal (Exception "TypeError" msg)),
       mkState (remove_tree (scoped_dir w) (<[scoped_dir w := Dir]> (fs s)))
         (trace s ++ [ EvMkdtemp (scoped_dir w);
                       EvRun (job_command w p) (build_env w (hf_token p)) 1800;
                       EvRmtree (scoped_dir w) ])%list).
Proof.
  intros Hv Hargs Ht Hns.
  pose proof (job_bad_env w p s args Hargs (env_strs_bad_token w _ Ht Hns)) as Hj.
  eexists. by rewrite (generate_model_job _ _ _ _ _ _ Hv Hj).
Qed.

Lemma non_string_token_is_internal_error_witness :
  exists msg,
    (generate_model (stub_world two_files_tool zip_archiver)
       (mkRequest true (Some (VDict [("model", VStr "gpt2"); ("token", VInt 42)])))
       (initial base_fs)).1
    = Return (err_internal (Exception "TypeError" msg)).
Proof.
  destruct (non_string_token_is_internal_error
              (stub_world two_files_tool zip_archiver)
              (mkRequest true (Some (VDict [("model", VStr "gpt2"); ("token", VInt 42)])))
              (initial base_fs)
              (mkParams (VStr "gpt2") (VStr "fp32") (VStr "cpu") (VInt 42))
              gpt2_args) as [msg H].
  - reflexivity.
  - reflexivity.
  - reflexivity.
  - intros x. discriminate.
  - exists msg. by rewrite H.
Defined.

(** ** Failures of the tool and of the archiver *)

(** X10: when the tool cannot be started (the interpreter is missing,
    say: any exception of the run other than a timeout or a non-zero
    exit), the answer is the 500 internal-error response carrying that
    exception; the temporary directory is removed, and neither the output
    check nor packaging is reached. *)
Theorem tool_not_started_is_internal_error (w : World) (request : Request)
    (s : State) (p : Params) (args : list string) (envs : gmap string string)
    (cls msg : string) :
  validate request s = (Normal p, s) ->
  as_strs 0 (job_command w p) = inr args ->
  env_strs (build_env w (hf_token p)) = Some envs ->
  spawn w args envs 1800 (<[scoped_dir w := Dir]> (fs s)) = inl (Exception cls msg) ->
  generate_model w request s
  = (Return (err_internal (Exception cls msg)),
     mkState (remove_tree (scoped_dir w) (<[scoped_dir w := Dir]> (fs s)))
       (trace s ++ [ EvMkdtemp (scoped_dir w);
                     EvRun (job_command w p) (build_env w (hf_token p)) 1800;
                     EvRmtree (scoped_dir w) ])%list).
Proof.
  intros Hv Hargs Henv Hsp.
  pose proof (job_spawn_error _ _ _ _ Hargs _ Henv _ Hsp) as Hj.
  by rewrite (generate_model_job _ _ _ _ _ _ Hv Hj).
Qed.

(** X11: when the tool exits 0 and the output path is a regular file,
    the answer is not the "No output generated" response: listing the
    path raises NotADirectoryError, which is answered by the 500
    internal-error response; packaging is not reached. *)
Theorem output_file_is_internal_error (w : World) (request : Request)
    (s : State) (p : Params) (args : list string) (envs : gmap string string)
    (out err c : string) (f1 : FS) :
  validate request s = (Normal p, s) ->
  as_strs 0 (job_command w p) = inr args ->
  env_strs (build_env w (hf_token p)) = Some envs ->
  spawn w args envs 1800 (<[scoped_dir w := Dir]> (fs s))
    = inr (Exited 0 out err, f1) ->
  f1 !! output_dir w = Some (File c) ->
  generate_model w request s
  = (Return (err_internal
               (Exception "NotADirectoryError"
                  ("[Errno 20] Not a directory: '" ++ output_dir w ++ "'"))),
     mkState (remove_tree (scoped_dir w) f1)
       (trace s ++ [ EvMkdtemp (scoped_dir w);
                     EvRun (job_command w p) (build_env w (hf_token p)) 1800;
                     EvExists (output_dir w); EvListdir (output_dir w);
                     EvRmtree (scoped_dir w) ])%list).
Proof.
  intros Hv Hargs Henv Hsp Hout.
  pose proof (job_output_not_a_directory _ _ _ _ Hargs _ Henv _ _ _ Hsp _ Hout) as Hj.
  by rewrite (generate_model_job _ _ _ _ _ _ Hv Hj).
Qed.

(** How a job whose output is there ends, by the way packaging goes. *)
Lemma generate_model_packaged w request s p args envs out err f1 m pr e r f2 evs :
  validate request s = (Normal p, s) ->
  as_strs 0 (job_command w p) = inr args ->
  env_strs (build_env w (hf_token p)) = Some envs ->
  spawn w args envs 1800 (<[scoped_dir w := Dir]> (fs s))
    = inr (Exited 0 out err, f1) ->
  f1 !! output_dir w = Some Dir ->
  entries (output_dir w) f1 <> [] ->
  model_name p = VStr m -> precision p = VStr pr -> execution_provider p = VStr e ->
  package_path w (archive_name m pr e) f1 r f2 evs ->
  generate_model w request s
  = (Return r,
     mkState (remove_tree (scoped_dir w) f2)
       (trace s ++ EvMkdtemp (scoped_dir w)
          :: ([ EvRun (job_command w p) (build_env w (hf_token p)) 1800;
                EvExists (output_dir w); EvListdir (output_dir w) ] ++ evs)
          ++ [EvRmtree (scoped_dir w)])%list).
Proof.
  intros Hv Hargs Henv Hsp Hout Hent Hm Hp He Hk.
  assert (Hpath : job_path w p (fs s) (Return r) f2
            ([ EvRun (job_command w p) (build_env w (hf_token p)) 1800;
               EvExists (output_dir w); EvListdir (output_dir w) ] ++ evs)%list).
  { eapply path_packaged; eauto. }
  by rewrite (generate_model_job _ _ _ _ _ _ Hv (job_path_run _ _ _ _ _ _ Hpath)).
Qed.

Lemma tool_not_started_is_internal_error_witness :
  (generate_model (stub_world missing_tool zip_archiver) gpt2_request
     (initial base_fs)).1
  = Return (err_internal
              (Exception "FileNotFoundError"
                 "[Errno 2] No such file or directory: 'python'")).
Proof.
  rewrite (tool_not_started_is_internal_error
             (stub_world missing_tool zip_archiver) gpt2_request (initial base_fs)
             gpt2_params gpt2_args gpt2_env
             "FileNotFoundError" "[Errno 2] No such file or directory: 'python'").
  - reflexivity.
  - reflexivity.
  - reflexivity.
  - vm_compute. reflexivity.
  - vm_compute. reflexivity.
Defined.

Lemma output_file_is_internal_error_witness :
  (generate_model (stub_world file_tool zip_archiver) gpt2_request
     (initial base_fs)).1
  = Return (err_internal
              (Exception "NotADirectoryError"
                 "[Errno 20] Not a directory: '/app/tmp/tmpk3x9_q2a/model_output'")).
Proof.
  rewrite (output_file_is_internal_error
             (stub_world file_tool zip_archiver) gpt2_request (initial base_fs)
             gpt2_params gpt2_args gpt2_env "" "" "onnx"
             (<["/app/tmp/tmpk3x9_q2a/model_output" := File "onnx"]>
                (<[gpt2_dir := Dir]> base_fs))).
  - reflexivity.
  - reflexivity.
  - reflexivity.
  - vm_compute. reflexivity.
  - vm_compute. reflexivity.
  - vm_compute. reflexivity.
Defined.

(** X12: when creating the archive raises, the answer is the 500
    response "Archive creation failed: " followed by the exception; the
    archive is not looked for and nothing is sent. *)
Theorem archiver_exception_is_reported (w : World) (request : Request)
    (s : State) (p : Params) (args : list string) (envs : gmap string string)
    (out err m pr e : string) (f1 f2 : FS) (ex : Exn) :
  validate request s = (Normal p, s) ->
  as_strs 0 (job_command w p) = inr args ->
  env_strs (build_env w (hf_token p)) = Some envs ->
  spawn w args envs 1800 (<[scoped_dir w := Dir]> (fs s))
    = inr (Exited 0 out err, f1) ->
  f1 !! output_dir w = Some Dir ->
  entries (output_dir w) f1 <> [] ->
  model_name p = VStr m -> precision p = VStr pr -> execution_provider p = VStr e ->
  make_archive w (os_path_join (scoped_dir w) (archive_name m pr e)) "zip"
    (output_dir w) f1 = (Some ex, f2) ->
  generate_model w request s
  = (Return (Json [("error", [Lit "Archive creation failed: "; FmtExn ex])] 500),
     mkState (remove_tree (scoped_dir w) f2)
       (trace s ++ [ EvMkdtemp (scoped_dir w);
                     EvRun (job_command w p) (build_env w (hf_token p)) 1800;
                     EvExists (output_dir w); EvListdir (output_dir w);
                     EvMakeArchive (os_path_join (scoped_dir w) (archive_name m pr e))
                       "zip" (output_dir w);
                     EvRmtree (scoped_dir w) ])%list).
Proof.
  intros Hv Hargs Henv Hsp Hout Hent Hm Hp He Hmk.
  by rewrite (generate_model_packaged _ _ _ _ _ _ _ _ _ _ _ _ _ _ _
                Hv Hargs Henv Hsp Hout Hent Hm Hp He
                (path_archive_raises _ _ _ _ _ Hmk)).
Qed.

Lemma archiver_exception_is_reported_witness :
  (generate_model (stub_world two_files_tool broken_archiver) gpt2_request
     (initial base_fs)).1
  = Return (Json [("error", [ Lit "Archive creation failed: ";
                              FmtExn (Exception "OSError"
                                        "[Errno 28] No space left on device") ])] 500).
Proof.
  rewrite (archiver_exception_is_reported
             (stub_world two_files_tool broken_archiver) gpt2_request
             (initial base_fs) gpt2_params gpt2_args gpt2_env "done" ""
             "gpt2" "fp32" "cpu" gpt2_output_fs gpt2_output_fs
             (Exception "OSError" "[Errno 28] No space left on device")).
  - reflexivity.
  - reflexivity.
  - reflexivity.
  - vm_compute. reflexivity.
  - vm_compute. reflexivity.
  - vm_compute. reflexivity.
  - vm_compute. discriminate.
  - reflexivity.
  - reflexivity.
  - reflexivity.
  - vm_compute. reflexivity.
Defined.

(** X13: when the archiver returns without an exception but the archive
    file is not there, the answer is the 500 response "Failed to create
    output archive"; nothing is sent. *)
Theorem missing_archive_is_reported (w : World) (request : Request)
    (s : State) (p : Params) (args : list string) (envs : gmap string string)
    (out err m pr e : string) (f1 f2 : FS) :
  validate request s = (Normal p, s) ->
  as_strs 0 (job_command w p) = inr args ->
  env_strs (build_env w (hf_token p)) = Some envs ->
  spawn w args envs 1800 (<[scoped_dir w := Dir]> (fs s))
    = inr (Exited 0 out err, f1) ->
  f1 !! output_dir w = Some Dir ->
  entries (output_dir w) f1 <> [] ->
  model_name p = VStr m -> precision p = VStr pr -> execution_provider p = VStr e ->
  make_archive w (os_path_join (scoped_dir w) (archive_name m pr e)) "zip"
    (output_dir w) f1 = (None, f2) ->
  f2 !! archive_file w (archive_name m pr e) = None ->
  generate_model w request s
  = (Return (Json [("error", [Lit "Failed to create output archive"])] 500),
     mkState (remove_tree (scoped_dir w) f2)
       (trace s ++ [ EvMkdtemp (scoped_dir w);
                     EvRun (job_command w p) (build_env w (hf_token p)) 1800;
                     EvExists (output_dir w); EvListdir (output_dir w);
                     EvMakeArchive (os_path_join (scoped_dir w) (archive_name m pr e))
                       "zip" (output_dir w);
                     EvExists (archive_file w (archive_name m pr e));
                     EvRmtree (scoped_dir w) ])%list).
Proof.
  intros Hv Hargs Henv Hsp Hout Hent Hm Hp He Hmk Hz.
  by rewrite (generate_model_packaged _ _ _ _ _ _ _ _ _ _ _ _ _ _ _
                Hv Hargs Henv Hsp Hout Hent Hm Hp He
                (path_archive_missing _ _ _ _ Hmk Hz)).
Qed.

Lemma missing_archive_is_reported_witness :
  (generate_model (stub_world two_files_tool idle_archiver) gpt2_request
     (initial base_fs)).1
  = Return (Json [("error", [Lit "Failed to create output archive"])] 500).
Proof.
  rewrite (missing_archive_is_reported
             (stub_world two_files_tool idle_archiver) gpt2_request
             (initial base_fs) gpt2_params gpt2_args gpt2_env "done" ""
             "gpt2" "fp32" "cpu" gpt2_output_fs gpt2_output_fs).
  - reflexivity.
  - reflexivity.
  - reflexivity.
  - vm_compute. reflexivity.
  - vm_compute. reflexivity.
  - vm_compute. reflexivity.
  - vm_compute. discriminate.
  - reflexivity.
  - reflexivity.
  - reflexivity.
  - vm_compute. reflexivity.
  - vm_compute. reflexivity.
Defined.

(** X14: an exception raised while the archive is opened for sending
    (here: the archive path is a directory) is caught by the handler
    around packaging, so it is answered "Archive creation failed: ..."
    and not by the internal-error response. *)
Theorem send_failure_is_reported_as_archive_failure (w : World)
    (request : Request) (s : State) (p : Params) (args : list string)
    (envs : gmap string string) (out err m pr e : string) (f1 f2 : FS) :
  validate request s = (Normal p, s) ->
  as_strs 0 (job_command w p) = inr args ->
  env_strs (build_env w (hf_token p)) = Some envs ->
  spawn w args envs 1800 (<[scoped_dir w := Dir]> (fs s))
    = inr (Exited 0 out err, f1) ->
  f1 !! output_dir w = Some Dir ->
  entries (output_dir w) f1 <> [] ->
  model_name p = VStr m -> precision p = VStr pr -> execution_provider p = VStr e ->
  make_archive w (os_path_join (scoped_dir w) (archive_name m pr e)) "zip"
    (output_dir w) f1 = (None, f2) ->
  f2 !! archive_file w (archive_name m pr e) = Some Dir ->
  (generate_model w request s).1
  = Return (Json [("error",
                   [ Lit "Archive creation failed: ";
                     FmtExn (Exception "IsADirectoryError"
                               ("[Errno 21] Is a directory: '"
                                ++ archive_file w (archive_name m pr e) ++ "'")) ])] 500)
  /\ forall ex, (generate_model w request s).1 <> Return (err_internal ex).
Proof.
  intros Hv Hargs Henv Hsp Hout Hent Hm Hp He Hmk Hz.
  rewrite (generate_model_packaged _ _ _ _ _ _ _ _ _ _ _ _ _ _ _
             Hv Hargs Henv Hsp Hout Hent Hm Hp He
             (path_archive_is_directory _ _ _ _ Hmk Hz)).
  split; [reflexivity|]. intros ex. simpl. discriminate.
Qed.

Lemma send_failure_is_reported_as_archive_failure_witness :
  (generate_model (stub_world two_files_tool directory_archiver) gpt2_request
     (initial base_fs)).1
  = Return (Json [("error",
                   [ Lit "Archive creation failed: ";
                     FmtExn (Exception "IsADirectoryError"
                               "[Errno 21] Is a directory: '/app/tmp/tmpk3x9_q2a/gpt2_fp32_cpu.zip'") ])]
              500).
Proof.
  destruct (send_failure_is_reported_as_archive_failure
              (stub_world two_files_tool directory_archiver) gpt2_request
              (initial base_fs) gpt2_params gpt2_args gpt2_env "done" ""
              "gpt2" "fp32" "cpu" gpt2_output_fs
              (<["/app/tmp/tmpk3x9_q2a/gpt2_fp32_cpu.zip" := Dir]> gpt2_output_fs))
    as [H _].
  - reflexivity.
  - reflexivity.
  - vm_compute. reflexivity.
  - vm_compute. reflexivity.
  - vm_compute. reflexivity.
  - vm_compute. discriminate.
  - reflexivity.
  - reflexivity.
  - reflexivity.
  - vm_compute. reflexivity.
  - vm_compute. reflexivity.
  - exact H.
Defined.

(** ** The archive stays in the temporary directory *)

Lemma has_sep_append (a b : string) : has_sep (a ++ b) = has_sep a || has_sep b.
Proof.
  induction a as [|x a IH]; [done|]. rewrite append_cons. simpl.
  by rewrite IH, orb_assoc.
Qed.

Lemma strip_prefix_append (p x : string) : strip_prefix p (p ++ x) = Some x.
Proof.
  induction p as [|a p IH]; [by destruct x|]. rewrite append_cons. simpl.
  by rewrite Ascii.eqb_refl.
Qed.

Lemma entry_name_below (d : string) (a : ascii) (x : string) :
  has_sep (String a x) = false ->
  entry_name d (d ++ "/" ++ String a x) = Some (String a x).
Proof.
  intros Hx. unfold entry_name.
  rewrite <- string_append_assoc, strip_prefix_append. by rewrite Hx.
Qed.

Lemma supported_precision_no_sep (pr : string) :
  In pr SUPPORTED_PRECISIONS -> has_sep pr = false.
Proof. simpl. intros H. repeat (destruct H as [<-|H]; [done|]). done. Qed.

Lemma supported_provider_no_sep (e : string) :
  In e SUPPORTED_EXECUTION_PROVIDERS -> has_sep e = false.
Proof. simpl. intros H. repeat (destruct H as [<-|H]; [done|]). done. Qed.

(** X15: whatever the model identifier of a valid request (slashes,
    "..", anything), the archive is a direct entry of the request's
    temporary directory: its name, and so the download name, holds no
    "/", and its path is that directory, "/", and the name. *)
Theorem archive_is_an_entry_of_the_scoped_directory (w : World) (m pr e : string) :
  has_sep (tempname w) = false ->
  In pr SUPPORTED_PRECISIONS ->
  In e SUPPORTED_EXECUTION_PROVIDERS ->
  has_sep (archive_name m pr e ++ ".zip") = false
  /\ archive_file w (archive_name m pr e)
     = scoped_dir w ++ "/" ++ archive_name m pr e ++ ".zip"
  /\ entry_name (scoped_dir w) (archive_file w (archive_name m pr e))
     = Some (archive_name m pr e ++ ".zip").
Proof.
  intros Hname Hpr He.
  assert (Hsep : has_sep (archive_name m pr e ++ ".zip") = false).
  { unfold archive_name. rewrite !has_sep_append, replace_no_sep.
    by rewrite (supported_precision_no_sep _ Hpr), (supported_provider_no_sep _ He). }
  assert (Hfile : archive_file w (archive_name m pr e)
                  = scoped_dir w ++ "/" ++ archive_name m pr e ++ ".zip").
  { unfold archive_file. rewrite scoped_dir_join by (done || apply archive_name_relative).
    by rewrite !string_append_assoc. }
  split; [exact Hsep|]. split; [exact Hfile|].
  rewrite Hfile.
  destruct (archive_name m pr e ++ ".zip") as [|a x] eqn:Hz.
  - unfold archive_name in Hz. rewrite !string_append_assoc in Hz.
    destruct (replace "/" "_" m); discriminate.
  - by apply entry_name_below.
Qed.

Lemma archive_is_an_entry_of_the_scoped_directory_witness :
  let w := stub_world two_files_tool zip_archiver in
  has_sep (archive_name "../../etc/passwd" "int4" "cuda" ++ ".zip") = false
  /\ archive_file w (archive_name "../../etc/passwd" "int4" "cuda")
     = scoped_dir w ++ "/" ++ archive_name "../../etc/passwd" "int4" "cuda" ++ ".zip"
  /\ entry_name (scoped_dir w)
       (archive_file w (archive_name "../../etc/passwd" "int4" "cuda"))
     = Some (archive_name "../../etc/passwd" "int4" "cuda" ++ ".zip").
Proof.
  apply (archive_is_an_entry_of_the_scoped_directory
           (stub_world two_files_tool zip_archiver) "../../etc/passwd" "int4" "cuda").
  - reflexivity.
  - simpl. tauto.
  - simpl. tauto.
Defined.

(** X16: the archive name does not tell "/" from "_": a model and the
    same model with every "/" written "_" get the same archive name, and
    these are two different models whenever the first holds a "/". *)
Theorem archive_names_collide (m pr e : string) :
  archive_name (replace "/" "_" m) pr e = archive_name m pr e
  /\ (has_sep m = true -> replace "/" "_" m <> m).
Proof.
  split.
  - unfold archive_name. f_equal.
    induction m as [|a m IH]; [done|]. simpl. rewrite IH. f_equal.
    by destruct (Ascii.eqb a "/") eqn:Ha; [|rewrite Ha].
  - intros Hm Heq. pose proof (replace_no_sep m) as Hno.
    rewrite Heq in Hno. congruence.
Qed.

Lemma archive_names_collide_witness :
  archive_name "microsoft_phi-2" "fp32" "cpu" = archive_name "microsoft/phi-2" "fp32" "cpu"
  /\ "microsoft_phi-2" <> "microsoft/phi-2".
Proof.
  destruct (archive_names_collide "microsoft/phi-2" "fp32" "cpu") as [H1 H2].
  split; [exact H1|]. apply H2. reflexivity.
Defined.

(** ** How often the tool is run *)

(** X17: serving a request runs the tool at most once, always with the
    1800-second deadline, and not at all when the request does not pass
    validation. *)
Theorem tool_runs_at_most_once (w : World) (request : Request) (s : State) :
  exists new,
    runs (trace (generate_model w request s).2) = (runs (trace s) ++ new)%list
    /\ (length new <= 1)%nat
    /\ Forall (fun r => r.2 = 1800%Z) new
    /\ (accepted request = false -> new = []).
Proof.
  rewrite generate_model_runs.
  destruct (validate_outcome request s) as [[p Hv]|[(r & Hv & _)|[ex Hv]]];
    rewrite Hv.
  - assert (Hacc : accepted request = true).
    { unfold accepted. rewrite validate_pure in Hv.
      by destruct (validate request (mkState ∅ [])) as [[?| |] ?]. }
    eexists. split; [reflexivity|].
    destruct (as_strs 0 (job_command w p)); simpl.
    + split; [lia|]. split; [constructor|]. done.
    + split; [lia|]. split; [by repeat constructor|]. congruence.
  - exists []. repeat split; auto.
  - exists []. repeat split; auto.
Qed.

Lemma tool_runs_at_most_once_witness :
  runs (trace (generate_model (stub_world two_files_tool zip_archiver)
                 (request_of "gpt2" "int8" "cpu") (initial base_fs)).2) = [].
Proof.
  destruct (tool_runs_at_most_once (stub_world two_files_tool zip_archiver)
              (request_of "gpt2" "int8" "cpu") (initial base_fs))
    as (new & Hruns & _ & _ & Hnone).
  rewrite Hruns, Hnone; reflexivity.
Defined.

(** ** What the view leaves alone *)

Lemma under_false_ne (d q : string) : under d q = false -> d <> q.
Proof. intros H ->. by rewrite under_self in H. Qed.

Lemma package_path_frame w name f1 r f2 evs :
  archiver_confined w ->
  package_path w name f1 r f2 evs ->
  forall q, under (scoped_dir w) q = false -> f2 !! q = f1 !! q.
Proof. intros Ha H. inversion H; subst; eauto. Qed.

Lemma job_path_frame w p f o f' evs :
  tool_confined w -> archiver_confined w ->
  job_path w p f o f' evs ->
  forall q, under (scoped_dir w) q = false -> f' !! q = f !! q.
Proof.
  intros Ht Ha H q Hq.
  assert (H0 : (<[scoped_dir w := Dir]> f : FS) !! q = f !! q).
  { apply lookup_insert_ne. by apply under_false_ne. }
  inversion H; subst; try exact H0;
    try (match goal with
         | Hsp : spawn _ _ _ _ _ = inr _ |- _ =>
             rewrite <- H0; exact (Ht _ _ _ _ _ _ Hsp q Hq)
         end).
  match goal with
  | Hk : package_path _ _ _ _ _ _, Hsp : spawn _ _ _ _ _ = inr _ |- _ =>
      rewrite (package_path_frame _ _ _ _ _ _ Ha Hk q Hq), <- H0;
      exact (Ht _ _ _ _ _ _ Hsp q Hq)
  end.
Qed.

(** X18: if the tool and the archiver write only at or below the
    request's temporary directory, then after the view has returned every
    path outside that directory is as it was before the request, however
    the request went. *)
Theorem view_leaves_the_rest_of_the_file_system (w : World) (request : Request)
    (s : State) (q : string) :
  tool_confined w ->
  archiver_confined w ->
  under (scoped_dir w) q = false ->
  fs (generate_model w request s).2 !! q = fs s !! q.
Proof.
  intros Ht Ha Hq.
  destruct (validate_outcome request s) as [[p Hv]|[(r & Hv & Hst)|[ex Hv]]].
  - destruct (job_path_total w p (fs s)) as (o & f' & evs & Hpath).
    rewrite (generate_model_job _ _ _ _ _ _ Hv (job_path_run _ _ _ _ _ _ Hpath)).
    simpl. rewrite remove_tree_outside by done.
    by eapply job_path_frame.
  - by rewrite (generate_model_rejected _ _ _ _ Hv).
  - by rewrite (generate_model_raised _ _ _ _ Hv).
Qed.

Lemma view_leaves_the_rest_of_the_file_system_witness :
  fs (generate_model (stub_world silent_tool idle_archiver) gpt2_request
        (initial base_fs)).2 !! "/app/outputs" = Some Dir.
Proof.
  rewrite (view_leaves_the_rest_of_the_file_system
             (stub_world silent_tool idle_archiver) gpt2_request
             (initial base_fs) "/app/outputs").
  - reflexivity.
  - intros args envs timeout f c f' [= <- <-] q _. reflexivity.
  - intros base_name format root_dir f ex f' [= <- <-] q _. reflexivity.
  - reflexivity.
Defined.

(** ** What [/models] lists and what [/generate] accepts *)

Lemma accepted_request_of (a : ascii) (m p e : string) :
  accepted (request_of (String a m) p e)
  = py_in (VStr p) SUPPORTED_PRECISIONS
    && py_in (VStr e) SUPPORTED_EXECUTION_PROVIDERS
    && py_in2 (VStr p) (VStr e) VALID_COMBINATIONS.
Proof.
  unfold accepted, request_of. rewrite validate_first_failing.
  change (params_of [ ("model", VStr (String a m)); ("precision", VStr p);
                      ("execution_provider", VStr e) ])
    with (mkParams (VStr (String a m)) (VStr p) (VStr e) VNone).
  unfold first_failing, check_order, find, holds. simpl.
  destruct (py_in (VStr p) SUPPORTED_PRECISIONS); simpl; [|done].
  destruct (py_in (VStr e) SUPPORTED_EXECUTION_PROVIDERS); simpl; [|done].
  by destruct (py_in2 (VStr p) (VStr e) VALID_COMBINATIONS).
Qed.

(** X19: a request with a non-empty model is accepted by [/generate]
    exactly when its precision is among the precisions [/models] lists,
    its execution provider among the providers it lists, and the pair
    among the combinations it lists.  (So a listed combination whose
    precision is not listed, (bf16, cuda), is refused.) *)
Theorem accepted_iff_listed_by_models (a : ascii) (m p e : string) :
  accepted (request_of (String a m) p e) = true
  <-> In (VStr p) (advertised "supported_precisions")
      /\ In (VStr e) (advertised "supported_execution_providers")
      /\ In (VList [VStr p; VStr e]) (advertised "valid_combinations").
Proof.
  rewrite accepted_request_of, !andb_true_iff, !py_in_In, py_in2_In.
  change (advertised "supported_precisions") with (map VStr SUPPORTED_PRECISIONS).
  change (advertised "supported_execution_providers")
    with (map VStr SUPPORTED_EXECUTION_PROVIDERS).
  change (advertised "valid_combinations")
    with (map (fun pe : string * string => VList [VStr pe.1; VStr pe.2])
            VALID_COMBINATIONS).
  rewrite !in_map_iff. split.
  - intros [[Hp He] Hc]. split; [by exists p|]. split; [by exists e|].
    by exists (p, e).
  - intros [(p1 & [= ->] & Hp) [(e1 & [= ->] & He) ([p2 e2] & [= -> ->] & Hc)]].
    done.
Qed.

Lemma accepted_iff_listed_by_models_witness :
  accepted (request_of "gpt2" "int4" "webgpu") = true
  /\ accepted (request_of "gpt2" "bf16" "cuda") = false.
Proof.
  split.
  - apply (proj2 (accepted_iff_listed_by_models "g" "pt2" "int4" "webgpu")).
    simpl. tauto.
  - destruct (accepted (request_of "gpt2" "bf16" "cuda")) eqn:H; [|reflexivity].
    apply (proj1 (accepted_iff_listed_by_models "g" "pt2" "bf16" "cuda")) in H.
    destruct H as [H _]. simpl in H.
    repeat (destruct H as [H|H]; [discriminate H|]). destruct H.
Defined.

(** X20: each model [/models] gives as an example is a string with
    which a request that names nothing else is accepted; the execution
    provider such a request runs with is the one [/models] gives as the
    default. *)
Theorem listed_examples_are_accepted (v : value) :
  In v (advertised "examples") ->
  (exists m, v = VStr m)
  /\ accepted (mkRequest true (Some (VDict [("model", v)]))) = true
  /\ execution_provider (params_of [("model", v)])
     = advertised_value "default_execution_provider".
Proof.
  change (advertised "examples")
    with [ VStr "microsoft/DialoGPT-medium"; VStr "microsoft/DialoGPT-small";
           VStr "microsoft/phi-2"; VStr "meta-llama/Llama-3.2-1B-Instruct";
           VStr "gpt2" ].
  simpl. intros H.
  repeat (destruct H as [<-|H];
          [split; [by eexists|split; reflexivity]|]).
  done.
Qed.

Lemma listed_examples_are_accepted_witness :
  accepted (mkRequest true
              (Some (VDict [("model", VStr "meta-llama/Llama-3.2-1B-Instruct")])))
  = true.
Proof.
  destruct (listed_examples_are_accepted (VStr "meta-llama/Llama-3.2-1B-Instruct"))
    as (_ & H & _).
  - simpl. tauto.
  - exact H.
Defined.
